(** * weave/scxx/object.h: the [py::object] handle and its keyed reference

    A shallow embedding of [class py::object] and [class object::keyed_ref]
    over a small executable model of the part of the Python C API the class
    calls.  Every method is a function that threads the interpreter state
    ([runtime]) explicitly; [throw 1] is the [Throw] result. *)

From Stdlib Require Import ZArith NArith List Bool String Ascii Lia.
From Stdlib Require Import Strings.Byte.
Import ListNotations.
Open Scope Z_scope.

(** ** The host runtime: the <Python.h> primitives used by object.h *)
Module Python.

(** [PyObject*]: an address, [0] is the null pointer. *)
Definition PyObject := N.
Definition NULL : PyObject := 0%N.

Definition is_null_ptr (p : PyObject) : bool := N.eqb p NULL.

(** The exception classes ([PyExc_...]) that occur on the paths modelled. *)
Inductive PyExc :=
| PyExc_TypeError
| PyExc_KeyError
| PyExc_IndexError
| PyExc_OverflowError
| PyExc_ValueError
| PyExc_UnicodeDecodeError
| PyExc_AttributeError
| PyExc_SystemError.

Definition PyExc_eqb (a b : PyExc) : bool :=
  match a, b with
  | PyExc_TypeError, PyExc_TypeError
  | PyExc_KeyError, PyExc_KeyError
  | PyExc_IndexError, PyExc_IndexError
  | PyExc_OverflowError, PyExc_OverflowError
  | PyExc_ValueError, PyExc_ValueError
  | PyExc_UnicodeDecodeError, PyExc_UnicodeDecodeError
  | PyExc_AttributeError, PyExc_AttributeError
  | PyExc_SystemError, PyExc_SystemError => true
  | _, _ => false
  end.

(** [given] is [exc] or one of its subclasses (UnicodeDecodeError derives
    from ValueError; the other classes listed are unrelated). *)
Definition PyErr_GivenExceptionMatches (given exc : PyExc) : bool :=
  PyExc_eqb given exc ||
  match given, exc with
  | PyExc_UnicodeDecodeError, PyExc_ValueError => true
  | _, _ => false
  end.

(** What a primitive that runs code of the dynamic value answers. *)
Inductive answer (A : Type) :=
| Ok (a : A)
| Raises (e : PyExc).
Arguments Ok {A} a.
Arguments Raises {A} e.

(** The ordering tokens of [PyObject_RichCompareBool]. *)
Inductive cmp_op := Py_LT | Py_LE | Py_EQ | Py_NE | Py_GT | Py_GE.

(** A C [double], kept as its 64-bit IEEE-754 pattern: the handle only
    passes doubles through. *)
Definition double := Z.

(** The payload of the scalar and text objects. *)
Inductive pyval :=
| PyNone
| PyLong (z : Z)
| PyFloat (d : double)
| PyComplex (re im : double)
| PyUnicode (utf8 : list byte)
| PyOther.

(** The calls into the runtime that the properties below speak about. *)
Inductive event :=
| New (p : PyObject)
| Incref (p : PyObject)
| Decref (p : PyObject)
| Dealloc (p : PyObject)
| RawDecrement (p : PyObject)
| GetItem (o k : PyObject)
| SetItem (o k v : PyObject)
| RichCompare (o1 o2 : PyObject) (op : cmp_op)
| ErrSet (e : PyExc) (msg : string)
| ErrClear.

(** The interpreter state.  [items], [rejects], [compare] and
    [long_as_double] stand for the behaviour of the dynamic values
    themselves (their [__getitem__], [__setitem__], rich comparison and
    [__float__]), which is not code of the handle.  [cached] names the
    objects the runtime shares between all users of a value: the small
    integers and the short texts it keeps, or a text a value hands out as
    its string form. *)
Record runtime := mkRuntime {
  ob_refcnt : PyObject -> Z;
  ob_val : PyObject -> pyval;
  items : PyObject -> PyObject -> answer PyObject;
  rejects : PyObject -> PyObject -> PyObject -> option PyExc;
  compare : PyObject -> PyObject -> cmp_op -> answer bool;
  long_as_double : Z -> answer double;
  err : option (PyExc * string);
  brk : PyObject;
  log : list event;
  cached : pyval -> option PyObject
}.

Definition upd {A : Type} (f : PyObject -> A) (p : PyObject) (a : A)
  : PyObject -> A :=
  fun q => if N.eqb q p then a else f q.

Definition upd2 {A : Type} (f : PyObject -> PyObject -> A)
  (o k : PyObject) (a : A) : PyObject -> PyObject -> A :=
  fun o' k' => if N.eqb o' o && N.eqb k' k then a else f o' k'.

Definition with_refcnt (r : runtime) (rc : PyObject -> Z) : runtime :=
  mkRuntime rc (ob_val r) (items r) (rejects r) (compare r)
            (long_as_double r) (err r) (brk r) (log r) (cached r).

Definition with_err (r : runtime) (e : option (PyExc * string)) : runtime :=
  mkRuntime (ob_refcnt r) (ob_val r) (items r) (rejects r) (compare r)
            (long_as_double r) e (brk r) (log r) (cached r).

Definition with_items (r : runtime)
  (it : PyObject -> PyObject -> answer PyObject) : runtime :=
  mkRuntime (ob_refcnt r) (ob_val r) it (rejects r) (compare r)
            (long_as_double r) (err r) (brk r) (log r) (cached r).

Definition logged (r : runtime) (evs : list event) : runtime :=
  mkRuntime (ob_refcnt r) (ob_val r) (items r) (rejects r) (compare r)
            (long_as_double r) (err r) (brk r) (log r ++ evs) (cached r).

(** *** Reference counts *)

(** [Py_INCREF(p)]: [++p->ob_refcnt]. *)
Definition Py_INCREF (p : PyObject) (r : runtime) : runtime :=
  logged (with_refcnt r (upd (ob_refcnt r) p (ob_refcnt r p + 1))) [Incref p].

(** [Py_DECREF(p)]: [if (--p->ob_refcnt == 0) _Py_Dealloc(p)].  The
    deallocation is recorded; what the deallocator of [p] does to other
    objects is not modelled. *)
Definition Py_DECREF (p : PyObject) (r : runtime) : runtime :=
  let n := ob_refcnt r p - 1 in
  let r1 := logged (with_refcnt r (upd (ob_refcnt r) p n)) [Decref p] in
  if Z.eqb n 0 then logged r1 [Dealloc p] else r1.

(** [Py_XINCREF], [Py_XDECREF]: the same, and nothing on a null pointer. *)
Definition Py_XINCREF (p : PyObject) (r : runtime) : runtime :=
  if is_null_ptr p then r else Py_INCREF p r.

Definition Py_XDECREF (p : PyObject) (r : runtime) : runtime :=
  if is_null_ptr p then r else Py_DECREF p r.

(** *** The error indicator *)

Definition PyErr_Occurred (r : runtime) : bool :=
  match err r with Some _ => true | None => false end.

Definition PyErr_Clear (r : runtime) : runtime :=
  logged (with_err r None) [ErrClear].

Definition PyErr_SetString (e : PyExc) (msg : string) (r : runtime)
  : runtime :=
  logged (with_err r (Some (e, msg))) [ErrSet e msg].

(** An error raised inside the runtime (its message is not modelled). *)
Definition raise (e : PyExc) (r : runtime) : runtime :=
  PyErr_SetString e EmptyString r.

Definition PyErr_ExceptionMatches (exc : PyExc) (r : runtime) : bool :=
  match err r with
  | Some (given, _) => PyErr_GivenExceptionMatches given exc
  | None => false
  end.

(** *** Scalar and text objects from native values: each call returns a
    new reference *)

Fixpoint bytes_eqb (a b : list byte) : bool :=
  match a, b with
  | [], [] => true
  | x :: a', y :: b' => Byte.eqb x y && bytes_eqb a' b'
  | _, _ => false
  end.

Definition pyval_eqb (a b : pyval) : bool :=
  match a, b with
  | PyNone, PyNone => true
  | PyLong x, PyLong y => Z.eqb x y
  | PyFloat x, PyFloat y => Z.eqb x y
  | PyComplex x1 x2, PyComplex y1 y2 => Z.eqb x1 y1 && Z.eqb x2 y2
  | PyUnicode x, PyUnicode y => bytes_eqb x y
  | _, _ => false
  end.

(** The object the runtime shares for the value [v], if it keeps one. *)
Definition shared (r : runtime) (v : pyval) : option PyObject :=
  match cached r v with
  | Some p =>
      if negb (is_null_ptr p) && pyval_eqb (ob_val r p) v then Some p
      else None
  | None => None
  end.

(** A new reference to an object with the value [v]: the shared object for
    [v] with its count raised by one, or else a new object of count 1. *)
Definition alloc (v : pyval) (r : runtime) : PyObject * runtime :=
  match shared r v with
  | Some p => (p, Py_INCREF p r)
  | None =>
      let p := N.succ (brk r) in
      (p, mkRuntime (upd (ob_refcnt r) p 1) (upd (ob_val r) p v) (items r)
                    (rejects r) (compare r) (long_as_double r) (err r) p
                    (log r ++ [New p]) (cached r))
  end.

Definition PyLong_FromLong (v : Z) : runtime -> PyObject * runtime :=
  alloc (PyLong v).

Definition PyLong_FromUnsignedLong (v : Z) : runtime -> PyObject * runtime :=
  alloc (PyLong v).

Definition PyFloat_FromDouble (d : double) : runtime -> PyObject * runtime :=
  alloc (PyFloat d).

Definition PyComplex_FromDoubles (re im : double)
  : runtime -> PyObject * runtime :=
  alloc (PyComplex re im).

(** *** Scalar queries *)

Definition LONG_MIN : Z := - 2 ^ 63.
Definition LONG_MAX : Z := 2 ^ 63 - 1.

(** [-1.0] and [0.0] as IEEE-754 binary64 patterns. *)
Definition double_minus_one : double := 0xBFF0000000000000.
Definition double_zero : double := 0.

(** [PyLong_AsLong]: the value of an integer object that fits a C long;
    otherwise [-1] with an error set. *)
Definition PyLong_AsLong (p : PyObject) (r : runtime) : Z * runtime :=
  if is_null_ptr p then (-1, raise PyExc_SystemError r)
  else match ob_val r p with
       | PyLong z =>
           if (LONG_MIN <=? z) && (z <=? LONG_MAX) then (z, r)
           else (-1, raise PyExc_OverflowError r)
       | _ => (-1, raise PyExc_TypeError r)
       end.

(** [PyFloat_AsDouble]: the value of a float object, the conversion of an
    integer object; otherwise [-1.0] with an error set. *)
Definition PyFloat_AsDouble (p : PyObject) (r : runtime) : double * runtime :=
  if is_null_ptr p then (double_minus_one, raise PyExc_TypeError r)
  else match ob_val r p with
       | PyFloat d => (d, r)
       | PyLong z =>
           match long_as_double r z with
           | Ok d => (d, r)
           | Raises e => (double_minus_one, raise e r)
           end
       | _ => (double_minus_one, raise PyExc_TypeError r)
       end.

(** [Py_TYPE(p)]: the kind of the object, which every type test reads
    through the pointer.  [None] stands for the read through a null
    pointer, on which the program crashes. *)
Definition Py_TYPE (p : PyObject) (r : runtime) : option pyval :=
  if is_null_ptr p then None else Some (ob_val r p).

(** [PyComplex_RealAsDouble]: the real part of a complex object, and
    [PyFloat_AsDouble] of anything else.  It starts with the type test. *)
Definition PyComplex_RealAsDouble (p : PyObject) (r : runtime)
  : option (double * runtime) :=
  match Py_TYPE p r with
  | None => None
  | Some (PyComplex re _) => Some (re, r)
  | Some _ => Some (PyFloat_AsDouble p r)
  end.

(** [PyComplex_ImagAsDouble]: the imaginary part of a complex object, and
    [0.0] (no error) for anything else.  It starts with the type test. *)
Definition PyComplex_ImagAsDouble (p : PyObject) (r : runtime)
  : option (double * runtime) :=
  match Py_TYPE p r with
  | None => None
  | Some (PyComplex _ im) => Some (im, r)
  | Some _ => Some (double_zero, r)
  end.

(** *** Text *)

(** What a [const char*] denotes: the bytes of its buffer before the first
    NUL. *)
Fixpoint c_string (buf : list byte) : list byte :=
  match buf with
  | [] => []
  | b :: rest => if Byte.eqb b x00 then [] else b :: c_string rest
  end.

(** The well-formed UTF-8 byte sequences (Unicode, table 3-7), as the
    automaton the decoder of [PyUnicode_FromString] runs. *)
Inductive utf8_state := U_start | U_1 | U_2 | U_3 | U_E0 | U_ED | U_F0 | U_F4.

Definition in_range (lo hi n : N) : bool := (N.leb lo n && N.leb n hi)%N.

Definition utf8_step (s : utf8_state) (b : byte) : option utf8_state :=
  let n := Byte.to_N b in
  match s with
  | U_start =>
      if in_range 0x00 0x7F n then Some U_start
      else if in_range 0xC2 0xDF n then Some U_1
      else if N.eqb n 0xE0 then Some U_E0
      else if N.eqb n 0xED then Some U_ED
      else if in_range 0xE1 0xEF n then Some U_2
      else if N.eqb n 0xF0 then Some U_F0
      else if in_range 0xF1 0xF3 n then Some U_3
      else if N.eqb n 0xF4 then Some U_F4
      else None
  | U_1 => if in_range 0x80 0xBF n then Some U_start else None
  | U_2 => if in_range 0x80 0xBF n then Some U_1 else None
  | U_3 => if in_range 0x80 0xBF n then Some U_2 else None
  | U_E0 => if in_range 0xA0 0xBF n then Some U_1 else None
  | U_ED => if in_range 0x80 0x9F n then Some U_1 else None
  | U_F0 => if in_range 0x90 0xBF n then Some U_2 else None
  | U_F4 => if in_range 0x80 0x8F n then Some U_2 else None
  end.

Fixpoint utf8_run (s : utf8_state) (bs : list byte) : bool :=
  match bs with
  | [] => match s with U_start => true | _ => false end
  | b :: rest =>
      match utf8_step s b with
      | Some s' => utf8_run s' rest
      | None => false
      end
  end.

Definition utf8_valid (bs : list byte) : bool := utf8_run U_start bs.

(** [PyUnicode_FromString(const char* u)]: a new text object decoded from
    the NUL-terminated UTF-8 string [u]; [NULL] with an error set when the
    bytes are not UTF-8. *)
Definition PyUnicode_FromString (u : list byte) (r : runtime)
  : PyObject * runtime :=
  let bytes := c_string u in
  if utf8_valid bytes then alloc (PyUnicode bytes) r
  else (NULL, raise PyExc_UnicodeDecodeError r).

(** [PyUnicode_Check]: whether the object is of text kind. *)
Definition PyUnicode_Check (p : PyObject) (r : runtime) : option bool :=
  match Py_TYPE p r with
  | None => None
  | Some (PyUnicode _) => Some true
  | Some _ => Some false
  end.

(** [PyUnicode_AsUTF8]: the NUL-terminated UTF-8 buffer of a text object;
    [None] is the null pointer, returned with an error set. *)
Definition PyUnicode_AsUTF8 (p : PyObject) (r : runtime)
  : option (list byte) * runtime :=
  match ob_val r p with
  | PyUnicode bytes => (Some (bytes ++ [x00]), r)
  | _ => (None, raise PyExc_TypeError r)
  end.

(** *** Item access and comparison *)

(** [PyObject_GetItem(o, key)]: a new reference to [o[key]], or [NULL]
    with the error the lookup raised. *)
Definition PyObject_GetItem (o key : PyObject) (r : runtime)
  : PyObject * runtime :=
  let r1 := logged r [GetItem o key] in
  match items r o key with
  | Ok p => (p, with_refcnt r1 (upd (ob_refcnt r1) p (ob_refcnt r1 p + 1)))
  | Raises e => (NULL, raise e r1)
  end.

(** [PyObject_SetItem(o, key, v)]: [0] after storing [v] under [key] (the
    container takes its own reference to [v]; it gives up the one to the
    value it replaces, or, when the key is new, takes a reference to the
    key as well), [-1] with an error set when [o] rejects the store. *)
Definition PyObject_SetItem (o key v : PyObject) (r : runtime)
  : Z * runtime :=
  let r1 := logged r [SetItem o key v] in
  match rejects r o key v with
  | Some e => (-1, raise e r1)
  | None =>
      let r2 := with_refcnt r1 (upd (ob_refcnt r1) v (ob_refcnt r1 v + 1)) in
      let r3 := match items r o key with
                | Ok old =>
                    with_refcnt r2
                      (upd (ob_refcnt r2) old (ob_refcnt r2 old - 1))
                | Raises _ =>
                    with_refcnt r2
                      (upd (ob_refcnt r2) key (ob_refcnt r2 key + 1))
                end in
      (0, with_items r3 (upd2 (items r3) o key (Ok v)))
  end.

(** [PyObject_RichCompareBool(o1, o2, op)]: [1] or [0] for the truth of the
    comparison, [-1] with an error set when it raises.  [compare] is the
    answer of the primitive as a whole, the test for one and the same
    object included: CPython answers [Py_EQ] with [1] and [Py_NE] with [0]
    for an object compared with itself, without asking the object.  A
    runtime that does so is [identity_shortcut]. *)
Definition PyObject_RichCompareBool (o1 o2 : PyObject) (op : cmp_op)
  (r : runtime) : Z * runtime :=
  let r1 := logged r [RichCompare o1 o2 op] in
  match compare r o1 o2 op with
  | Ok true => (1, r1)
  | Ok false => (0, r1)
  | Raises e => (-1, raise e r1)
  end.

(** *** Attributes, calls and the remaining queries

    These primitives run code of the dynamic values as well.  What the
    values answer is gathered in [behaviour]; the attribute table, which
    [PyObject_SetAttr] and [PyObject_DelAttr] change, is state, kept beside
    the [runtime] in a [world].  What a callee or a deallocator does to
    other objects is not modelled. *)
Record behaviour := mkBehaviour {
  setattr_rejects : PyObject -> list byte -> PyObject -> option PyExc;
  call_of : PyObject -> PyObject -> PyObject -> answer PyObject;
  hash_of : PyObject -> answer Z;
  size_of : PyObject -> answer Z;
  truth_of : PyObject -> answer bool;
  callable_of : PyObject -> bool;
  repr_of : PyObject -> answer (list byte);
  str_of : PyObject -> answer (list byte);
  type_of : PyObject -> PyObject
}.

Record world := mkWorld {
  rt : runtime;
  attrs : PyObject -> list byte -> answer PyObject;
  dyn : behaviour
}.

Definition with_rt (w : world) (r : runtime) : world :=
  mkWorld r (attrs w) (dyn w).

(** A function on the runtime run in a world. *)
Definition lift {A : Type} (f : runtime -> A * runtime) (w : world)
  : A * world :=
  let '(a, r) := f (rt w) in (a, with_rt w r).

Definition lift_ (f : runtime -> runtime) (w : world) : world :=
  with_rt w (f (rt w)).

Definition upd_attr {A : Type} (f : PyObject -> list byte -> A)
  (o : PyObject) (name : list byte) (a : A) : PyObject -> list byte -> A :=
  fun o' name' => if N.eqb o' o && bytes_eqb name' name then a else f o' name'.

(** The count operations the runtime makes on its own behalf: a new
    reference handed to the caller, and the release of a reference a
    container or an attribute table held. *)
Definition new_reference (p : PyObject) (r : runtime) : runtime :=
  if is_null_ptr p then r
  else with_refcnt r (upd (ob_refcnt r) p (ob_refcnt r p + 1)).

Definition dropped_reference (p : PyObject) (r : runtime) : runtime :=
  if is_null_ptr p then r
  else with_refcnt r (upd (ob_refcnt r) p (ob_refcnt r p - 1)).

(** The attribute [name] of [o]: a new reference, or [NULL] with the error
    of the lookup set. *)
Definition get_attribute (o : PyObject) (name : list byte) (w : world)
  : PyObject * world :=
  match attrs w o name with
  | Ok p => (p, with_rt w (new_reference p (rt w)))
  | Raises e => (NULL, with_rt w (raise e (rt w)))
  end.

(** Removal of the attribute [name] of [o]: [0], or [-1] with an
    [AttributeError] set when there is none. *)
Definition delete_attribute (o : PyObject) (name : list byte) (w : world)
  : Z * world :=
  match attrs w o name with
  | Ok old =>
      (0, mkWorld (dropped_reference old (rt w))
            (upd_attr (attrs w) o name (Raises PyExc_AttributeError))
            (dyn w))
  | Raises _ => (-1, with_rt w (raise PyExc_AttributeError (rt w)))
  end.

(** Store of [v] as the attribute [name] of [o]: [0] after the store (the
    table takes its own reference to [v] and gives up the one to the value
    it replaces), [-1] with an error set when [o] rejects it.  A null [v]
    asks for the removal of the attribute. *)
Definition set_attribute (o : PyObject) (name : list byte) (v : PyObject)
  (w : world) : Z * world :=
  if is_null_ptr v then delete_attribute o name w
  else
    match setattr_rejects (dyn w) o name v with
    | Some e => (-1, with_rt w (raise e (rt w)))
    | None =>
        let r1 := new_reference v (rt w) in
        let r2 := match attrs w o name with
                  | Ok old => dropped_reference old r1
                  | Raises _ => r1
                  end in
        (0, mkWorld r2 (upd_attr (attrs w) o name (Ok v)) (dyn w))
    end.

(** The attribute name an object stands for: the bytes of a text object;
    anything else is a [TypeError]. *)
Definition attribute_name (name : PyObject) (w : world)
  : option (list byte) :=
  match ob_val (rt w) name with
  | PyUnicode bytes => Some bytes
  | _ => None
  end.

(** [PyObject_GetAttrString(o, const char* name)], [PyObject_GetAttr(o,
    name)] *)
Definition PyObject_GetAttrString (o : PyObject) (name : list byte)
  (w : world) : PyObject * world :=
  get_attribute o (c_string name) w.

Definition PyObject_GetAttr (o name : PyObject) (w : world)
  : PyObject * world :=
  match attribute_name name w with
  | Some bytes => get_attribute o bytes w
  | None => (NULL, with_rt w (raise PyExc_TypeError (rt w)))
  end.

(** [PyObject_HasAttrString], [PyObject_HasAttr]: [1] if the lookup
    succeeds, [0] otherwise; they always succeed. *)
Definition PyObject_HasAttrString (o : PyObject) (name : list byte)
  (w : world) : Z :=
  match attrs w o (c_string name) with
  | Ok _ => 1
  | Raises _ => 0
  end.

Definition PyObject_HasAttr (o name : PyObject) (w : world) : Z :=
  match attribute_name name w with
  | Some bytes => match attrs w o bytes with
                  | Ok _ => 1
                  | Raises _ => 0
                  end
  | None => 0
  end.

(** [PyObject_SetAttrString], [PyObject_SetAttr] *)
Definition PyObject_SetAttrString (o : PyObject) (name : list byte)
  (v : PyObject) (w : world) : Z * world :=
  set_attribute o (c_string name) v w.

Definition PyObject_SetAttr (o name v : PyObject) (w : world) : Z * world :=
  match attribute_name name w with
  | Some bytes => set_attribute o bytes v w
  | None => (-1, with_rt w (raise PyExc_TypeError (rt w)))
  end.

(** [PyObject_DelAttrString], [PyObject_DelAttr] *)
Definition PyObject_DelAttrString (o : PyObject) (name : list byte)
  (w : world) : Z * world :=
  delete_attribute o (c_string name) w.

Definition PyObject_DelAttr (o name : PyObject) (w : world) : Z * world :=
  match attribute_name name w with
  | Some bytes => delete_attribute o bytes w
  | None => (-1, with_rt w (raise PyExc_TypeError (rt w)))
  end.

(** [PyEval_CallObjectWithKeywords(callable, args, kw)]: a new reference
    to the result, or [NULL] with the error the callee raised. *)
Definition PyEval_CallObjectWithKeywords (callable args kw : PyObject)
  (w : world) : PyObject * world :=
  match call_of (dyn w) callable args kw with
  | Ok p => (p, with_rt w (new_reference p (rt w)))
  | Raises e => (NULL, with_rt w (raise e (rt w)))
  end.

(** [PyObject_Hash], [PyObject_Size]: the value, or [-1] with an error
    set. *)
Definition PyObject_Hash (o : PyObject) (w : world) : Z * world :=
  match hash_of (dyn w) o with
  | Ok h => (h, w)
  | Raises e => (-1, with_rt w (raise e (rt w)))
  end.

Definition PyObject_Size (o : PyObject) (w : world) : Z * world :=
  match size_of (dyn w) o with
  | Ok n => (n, w)
  | Raises e => (-1, with_rt w (raise e (rt w)))
  end.

(** [PyObject_IsTrue]: [1], [0], or [-1] with an error set. *)
Definition PyObject_IsTrue (o : PyObject) (w : world) : Z * world :=
  match truth_of (dyn w) o with
  | Ok true => (1, w)
  | Ok false => (0, w)
  | Raises e => (-1, with_rt w (raise e (rt w)))
  end.

(** [PyCallable_Check]: [1] or [0]; it always succeeds. *)
Definition PyCallable_Check (o : PyObject) (w : world) : Z :=
  if callable_of (dyn w) o then 1 else 0.

(** [PyObject_Repr], [PyObject_Str]: a new reference to a text object, or
    [NULL] with an error set.  The text object is a new one, or one the
    runtime already has for that text, with one more reference: see
    [alloc]. *)
Definition PyObject_Repr (o : PyObject) (w : world) : PyObject * world :=
  match repr_of (dyn w) o with
  | Ok bytes => lift (alloc (PyUnicode bytes)) w
  | Raises e => (NULL, with_rt w (raise e (rt w)))
  end.

Definition PyObject_Str (o : PyObject) (w : world) : PyObject * world :=
  match str_of (dyn w) o with
  | Ok bytes => lift (alloc (PyUnicode bytes)) w
  | Raises e => (NULL, with_rt w (raise e (rt w)))
  end.

(** [PyObject_Type]: a new reference to the type of [o]. *)
Definition PyObject_Type (o : PyObject) (w : world) : PyObject * world :=
  if is_null_ptr o
  then (NULL, with_rt w (raise PyExc_SystemError (rt w)))
  else (type_of (dyn w) o,
        with_rt w (new_reference (type_of (dyn w) o) (rt w))).

(** [PyLong_Check], [PyFloat_Check], [PyComplex_Check]: [1] or [0]. *)
Definition PyLong_Check (p : PyObject) (r : runtime) : option Z :=
  match Py_TYPE p r with
  | None => None
  | Some (PyLong _) => Some 1
  | Some _ => Some 0
  end.

Definition PyFloat_Check (p : PyObject) (r : runtime) : option Z :=
  match Py_TYPE p r with
  | None => None
  | Some (PyFloat _) => Some 1
  | Some _ => Some 0
  end.

Definition PyComplex_Check (p : PyObject) (r : runtime) : option Z :=
  match Py_TYPE p r with
  | None => None
  | Some (PyComplex _ _) => Some 1
  | Some _ => Some 0
  end.

End Python.

(** ** namespace py: class object *)
Module py.
Import Python.

(** How a member function ends: it returns, or it leaves by [throw 1].
    [Crash] stands for the dereference of a null pointer. *)
Inductive result (A : Type) :=
| Return (a : A)
| Throw
| Crash.
Arguments Return {A} a.
Arguments Throw {A}.
Arguments Crash {A}.

(** Modelled from the spec: [void fail(PyObject*, const char* msg)] is only
    declared in object.h; its definition is not part of the sources.  The
    spec describes it as the failure-raising entry point that takes an
    error-kind token and a message, routes through the process-wide error
    state, and signals the failure by unwinding. *)
Definition fail {A : Type} (exc : PyExc) (msg : string) (r : runtime)
  : result A * runtime :=
  (Throw, PyErr_SetString exc msg r).

(** The data members: [_obj] is the underlying pointer, [_own] is [_obj] if
    the handle owns a reference to it, else zero. *)
Record object := mkObject {
  _obj : PyObject;
  _own : PyObject
}.

(** [operator PyObject* () const] *)
Definition operator_PyObject (self : object) : PyObject := _obj self.

(** [grab_ref]: incref new owner, decref old owner, and adjust to new
    owner. *)
Definition grab_ref (self : object) (newObj : PyObject) (r : runtime)
  : object * runtime :=
  let r1 := Py_XINCREF newObj r in
  let r2 := Py_XDECREF (_own self) r1 in
  (mkObject newObj newObj, r2).

(** [lose_ref]: decrease the reference count without destroying the
    object. *)
Definition lose_ref (o : PyObject) (r : runtime) : PyObject * runtime :=
  if negb (is_null_ptr o)
  then (o, logged (with_refcnt r (upd (ob_refcnt r) o (ob_refcnt r o - 1)))
             [RawDecrement o])
  else (o, r).

(** *** Constructors *)

(** [object(const std::nullptr_t &)] *)
Definition object_nullptr : object := mkObject NULL NULL.

(** [object(const object& other)] *)
Definition object_copy (other : object) (r : runtime) : object * runtime :=
  grab_ref (mkObject NULL NULL) (operator_PyObject other) r.

(** [object(PyObject* obj)] *)
Definition object_PyObject (obj : PyObject) (r : runtime)
  : object * runtime :=
  grab_ref (mkObject NULL NULL) obj r.

(** The conversion of a wider integer to [int]. *)
Definition cast_int (z : Z) : Z := (z + 2 ^ 31) mod 2 ^ 32 - 2 ^ 31.

Definition INT_MIN : Z := - 2 ^ 31.
Definition INT_MAX : Z := 2 ^ 31 - 1.

(** [object(bool val)] *)
Definition object_bool (val : bool) (r : runtime) : object * runtime :=
  let '(p, r1) := PyLong_FromLong (if val then 1 else 0) r in
  (mkObject p p, r1).

(** [object(int val)] *)
Definition object_int (val : Z) (r : runtime) : object * runtime :=
  let '(p, r1) := PyLong_FromLong (cast_int val) r in
  (mkObject p p, r1).

(** [object(unsigned int val)] *)
Definition object_unsigned_int (val : Z) (r : runtime) : object * runtime :=
  let '(p, r1) := PyLong_FromUnsignedLong val r in
  (mkObject p p, r1).

(** [object(long val)] *)
Definition object_long (val : Z) (r : runtime) : object * runtime :=
  let '(p, r1) := PyLong_FromLong val r in
  (mkObject p p, r1).

(** [object(unsigned long val)] *)
Definition object_unsigned_long (val : Z) (r : runtime) : object * runtime :=
  let '(p, r1) := PyLong_FromUnsignedLong val r in
  (mkObject p p, r1).

(** [object(double val)] *)
Definition object_double (val : double) (r : runtime) : object * runtime :=
  let '(p, r1) := PyFloat_FromDouble val r in
  (mkObject p p, r1).

(** [object(const std::complex<double>& val)] *)
Definition object_complex (val : double * double) (r : runtime)
  : object * runtime :=
  let '(p, r1) := PyComplex_FromDoubles (fst val) (snd val) r in
  (mkObject p p, r1).

(** [object(const char* val)]: [val] is the buffer pointed to. *)
Definition object_const_char (val : list byte) (r : runtime)
  : object * runtime :=
  let '(p, r1) := PyUnicode_FromString val r in
  (mkObject p p, r1).

(** [std::string::c_str()]: the bytes of the string followed by a NUL. *)
Definition c_str (s : list byte) : list byte := s ++ [x00].

(** [object(const std::string& val)] *)
Definition object_string (val : list byte) (r : runtime) : object * runtime :=
  let '(p, r1) := PyUnicode_FromString (c_str val) r in
  (mkObject p p, r1).

(** [virtual ~object()] *)
Definition destroy (self : object) (r : runtime) : runtime :=
  Py_XDECREF (_own self) r.

(** *** Casting operators *)

(** [operator int () const] *)
Definition operator_int (self : object) (r : runtime) : result Z * runtime :=
  let '(v, r1) := PyLong_AsLong (_obj self) r in
  let _val := cast_int v in
  if PyErr_Occurred r1 then
    let r2 := PyErr_Clear r1 in
    fail PyExc_TypeError "cannot convert value to integer" r2
  else (Return _val, r1).

(** A C [float] as its 32-bit pattern. *)
Definition float := Z.

Section Narrowing.

(** The conversion [(float) d] of a double to the nearest float. *)
Variable double_to_float : double -> float.

(** [operator float () const] *)
Definition operator_float (self : object) (r : runtime)
  : result float * runtime :=
  let '(d, r1) := PyFloat_AsDouble (_obj self) r in
  let _val := double_to_float d in
  if PyErr_Occurred r1 then
    let r2 := PyErr_Clear r1 in
    fail PyExc_TypeError "cannot convert value to float" r2
  else (Return _val, r1).

End Narrowing.

(** [operator double () const] *)
Definition operator_double (self : object) (r : runtime)
  : result double * runtime :=
  let '(_val, r1) := PyFloat_AsDouble (_obj self) r in
  if PyErr_Occurred r1 then
    let r2 := PyErr_Clear r1 in
    fail PyExc_TypeError "cannot convert value to double" r2
  else (Return _val, r1).

(** [operator std::complex<double> () const] *)
Definition operator_complex (self : object) (r : runtime)
  : result (double * double) * runtime :=
  match PyComplex_RealAsDouble (_obj self) r with
  | None => (Crash, r)
  | Some (real, r1) =>
      match PyComplex_ImagAsDouble (_obj self) r1 with
      | None => (Crash, r1)
      | Some (imag, r2) =>
          if PyErr_Occurred r2 then
            let r3 := PyErr_Clear r2 in
            fail PyExc_TypeError "cannot convert value to complex" r3
          else (Return (real, imag), r2)
      end
  end.

(** [operator std::string () const]; [std::string(const char* s)] copies the
    bytes before the first NUL. *)
Definition operator_string (self : object) (r : runtime)
  : result (list byte) * runtime :=
  match PyUnicode_Check (_obj self) r with
  | None => (Crash, r)
  | Some false => fail PyExc_TypeError "cannot convert value to std::string" r
  | Some true =>
      match PyUnicode_AsUTF8 (_obj self) r with
      | (Some buf, r1) => (Return (c_string buf), r1)
      | (None, r1) => (Crash, r1)
      end
  end.

(** [operator const char* () const]: the buffer returned, [None] for a null
    pointer. *)
Definition operator_const_char (self : object) (r : runtime)
  : result (option (list byte)) * runtime :=
  match PyUnicode_Check (_obj self) r with
  | None => (Crash, r)
  | Some false => fail PyExc_TypeError "cannot convert value to const char*" r
  | Some true =>
      let '(buf, r1) := PyUnicode_AsUTF8 (_obj self) r in
      (Return buf, r1)
  end.

(** *** Assignment *)

(** [object& operator=(const object& other)]: the handle after the
    assignment. *)
Definition assign (self other : object) (r : runtime) : object * runtime :=
  grab_ref self (operator_PyObject other) r.

(** The class declares a copy constructor, a copy assignment operator and
    a destructor, and no move constructor or move assignment operator, so
    none is implicitly declared: [object b(std::move(a))] and
    [b = std::move(a)] bind the rvalue to [const object&] and run the copy
    operations.  The source handle is returned as it is left. *)
Definition move_construct (other : object) (r : runtime)
  : object * object * runtime :=
  let '(self, r1) := object_copy other r in
  (self, other, r1).

Definition move_assign (self other : object) (r : runtime)
  : object * object * runtime :=
  let '(self', r1) := assign self other r in
  (self', other, r1).

(** *** Comparison *)

(** The conversion of an [int] to [bool]. *)
Definition bool_of_int (z : Z) : bool := negb (Z.eqb z 0).

(** [template<class T> int cmp(T other) const], with the two operands of
    the subtraction evaluated left to right. *)
Definition cmp (self other : object) (r : runtime) : result Z * runtime :=
  let '(o, r1) := object_copy other r in
  let '(gt, r2) := PyObject_RichCompareBool (_obj self) (operator_PyObject o)
                     Py_GT r1 in
  let '(lt, r3) := PyObject_RichCompareBool (_obj self) (operator_PyObject o)
                     Py_LT r2 in
  let r4 := destroy o r3 in
  (Return (gt - lt), r4).

(** The body shared by the six comparison operators:
    [return PyObject_RichCompareBool(_obj, other, op);] with return type
    [bool]. *)
Definition compare_with (op : cmp_op) (self other : object) (r : runtime)
  : result bool * runtime :=
  let '(c, r1) := PyObject_RichCompareBool (_obj self)
                    (operator_PyObject other) op r in
  (Return (bool_of_int c), r1).

(** [operator ==], [!=], [<], [>], [<=], [>=] *)
Definition operator_eq := compare_with Py_EQ.
Definition operator_ne := compare_with Py_NE.
Definition operator_lt := compare_with Py_LT.
Definition operator_gt := compare_with Py_GT.
Definition operator_le := compare_with Py_LE.
Definition operator_ge := compare_with Py_GE.

(** *** Queries and ownership *)

(** [bool is_null()] *)
Definition is_null (self : object) : bool := is_null_ptr (_obj self).

(** [PyObject* disown()]: the pointer returned and the handle as it is
    left. *)
Definition disown (self : object) : PyObject * object :=
  (_obj self, mkObject (_obj self) NULL).

(** [int refcount()] *)
Definition refcount (self : object) (r : runtime) : result Z :=
  if is_null_ptr (_obj self) then Crash
  else Return (cast_int (ob_refcnt r (_obj self))).

(** [virtual void set_item(const object& key, const object& val)] *)
Definition set_item (self key val : object) (r : runtime)
  : result unit * runtime :=
  let '(rslt, r1) := PyObject_SetItem (_obj self) (operator_PyObject key)
                       (operator_PyObject val) r in
  if Z.eqb rslt (-1) then (Throw, r1) else (Return tt, r1).

(** ** class object::keyed_ref *)

(** A [keyed_ref] is an [object] ([base]) with a reference to its parent
    and a copy of its key.  [_parent] holds the parent handle as it is when
    the reference is made. *)
Record keyed_ref := mkKeyedRef {
  base : object;
  _parent : object;
  _key : object
}.

(** [keyed_ref(object obj, object& parent, const object& key)
      : object(obj), _parent(parent), _key(key)] *)
Definition keyed_ref_new (obj parent key : object) (r : runtime)
  : keyed_ref * runtime :=
  let '(b, r1) := object_copy obj r in
  let '(k, r2) := object_copy key r1 in
  (mkKeyedRef b parent k, r2).

(** [keyed_ref& operator=(const object& other)]: how the call ends and the
    keyed reference as it is left. *)
Definition keyed_ref_assign (self : keyed_ref) (other : object) (r : runtime)
  : result unit * keyed_ref * runtime :=
  let '(b, r1) := grab_ref (base self) (operator_PyObject other) r in
  let self' := mkKeyedRef b (_parent self) (_key self) in
  let '(res, r2) := set_item (_parent self') (_key self') other r1 in
  (res, self', r2).

(** [keyed_ref& operator=(const keyed_ref& other)] *)
Definition keyed_ref_assign_keyed (self other : keyed_ref) (r : runtime)
  : result unit * keyed_ref * runtime :=
  let '(oth, r1) := object_copy (base other) r in
  let '(res, self', r2) := keyed_ref_assign self oth r1 in
  (res, self', destroy oth r2).

(** [template<class T> keyed_ref operator [] (T key)] for a key that is a
    handle.  The temporaries ([k], [rslt] and the by-value argument of the
    [keyed_ref] constructor) are destroyed on both ways out. *)
Definition operator_index (self key : object) (r : runtime)
  : result keyed_ref * runtime :=
  let '(k, r1) := object_copy key r in
  let '(item, r2) := PyObject_GetItem (_obj self) (operator_PyObject k) r1 in
  let '(rslt, r3) := object_PyObject item r2 in
  let '(_, r4) := lose_ref (operator_PyObject rslt) r3 in
  let finish (r5 : runtime) : result keyed_ref * runtime :=
    let '(arg, r6) := object_copy rslt r5 in
    let '(kr, r7) := keyed_ref_new arg self k r6 in
    let r8 := destroy arg r7 in
    let r9 := destroy rslt r8 in
    (Return kr, destroy k r9) in
  if is_null_ptr (operator_PyObject rslt) then
    if PyErr_ExceptionMatches PyExc_KeyError r4 then
      finish (PyErr_Clear r4)
    else if PyErr_ExceptionMatches PyExc_IndexError r4 then
      (Throw, destroy k (destroy rslt r4))
    else finish r4
  else finish r4.

(** ** class object, continued: attributes, calls and queries

    These members are functions on a [world].  A handle returned by value
    is constructed in place. *)

(** [int hasattr(const char* nm) const] *)
Definition hasattr (self : object) (nm : list byte) (w : world) : bool :=
  Z.eqb (PyObject_HasAttrString (_obj self) nm w) 1.

(** [int hasattr(const std::string& nm) const] *)
Definition hasattr_string (self : object) (nm : list byte) (w : world)
  : bool :=
  Z.eqb (PyObject_HasAttrString (_obj self) (c_str nm) w) 1.

(** [int hasattr(object& nm) const] *)
Definition hasattr_object (self nm : object) (w : world) : bool :=
  Z.eqb (PyObject_HasAttr (_obj self) (operator_PyObject nm) w) 1.

(** [object attr(const char* nm) const] *)
Definition attr (self : object) (nm : list byte) (w : world)
  : result object * world :=
  let '(val, w1) := PyObject_GetAttrString (_obj self) nm w in
  if is_null_ptr val then (Throw, w1)
  else
    let '(p, w2) := lift (lose_ref val) w1 in
    let '(h, w3) := lift (object_PyObject p) w2 in
    (Return h, w3).

(** [object attr(const std::string& nm) const] *)
Definition attr_string (self : object) (nm : list byte) (w : world)
  : result object * world :=
  attr self (c_str nm) w.

(** [object attr(const object& nm) const] *)
Definition attr_object (self nm : object) (w : world)
  : result object * world :=
  let '(val, w1) := PyObject_GetAttr (_obj self) (operator_PyObject nm) w in
  if is_null_ptr val then (Throw, w1)
  else
    let '(p, w2) := lift (lose_ref val) w1 in
    let '(h, w3) := lift (object_PyObject p) w2 in
    (Return h, w3).

(** [template<class T> void set_attr(const char* nm, T val)].  [convert]
    is the constructor [object(val)] that the type [T] selects; the
    temporary it makes lives to the end of the statement that calls the
    runtime. *)
Definition set_attr (self : object) (nm : list byte)
  (convert : runtime -> object * runtime) (w : world)
  : result unit * world :=
  let '(tmp, w1) := lift convert w in
  let '(res, w2) := PyObject_SetAttrString (_obj self) nm
                      (operator_PyObject tmp) w1 in
  let w3 := lift_ (destroy tmp) w2 in
  if Z.eqb res (-1) then (Throw, w3) else (Return tt, w3).

(** [template<class T> void set_attr(const std::string& nm, T val)] *)
Definition set_attr_string (self : object) (nm : list byte)
  (convert : runtime -> object * runtime) (w : world)
  : result unit * world :=
  let '(tmp, w1) := lift convert w in
  let '(res, w2) := PyObject_SetAttrString (_obj self) (c_str nm)
                      (operator_PyObject tmp) w1 in
  let w3 := lift_ (destroy tmp) w2 in
  if Z.eqb res (-1) then (Throw, w3) else (Return tt, w3).

(** [template<class T> void set_attr(const object& nm, T val)] *)
Definition set_attr_object (self nm : object)
  (convert : runtime -> object * runtime) (w : world)
  : result unit * world :=
  let '(tmp, w1) := lift convert w in
  let '(res, w2) := PyObject_SetAttr (_obj self) (operator_PyObject nm)
                      (operator_PyObject tmp) w1 in
  let w3 := lift_ (destroy tmp) w2 in
  if Z.eqb res (-1) then (Throw, w3) else (Return tt, w3).


(** [void del(const std::string& nm)] *)
Definition del_string (self : object) (nm : list byte) (w : world)
  : result unit * world :=
  let '(res, w1) := PyObject_DelAttrString (_obj self) (c_str nm) w in
  if Z.eqb res (-1) then (Throw, w1) else (Return tt, w1).

(** [void del(const object& nm)] *)
Definition del_object (self nm : object) (w : world)
  : result unit * world :=
  let '(res, w1) := PyObject_DelAttr (_obj self) (operator_PyObject nm) w in
  if Z.eqb res (-1) then (Throw, w1) else (Return tt, w1).

(** [std::string repr() const].  [object result = PyObject_Repr(_obj)]
    runs the constructor [object(PyObject* obj)]. *)
Definition repr (self : object) (w : world)
  : result (list byte) * world :=
  let '(p, w1) := PyObject_Repr (_obj self) w in
  let '(rslt, w2) := lift (object_PyObject p) w1 in
  if is_null_ptr (operator_PyObject rslt)
  then (Throw, lift_ (destroy rslt) w2)
  else
    match lift (PyUnicode_AsUTF8 (operator_PyObject rslt)) w2 with
    | (Some buf, w3) => (Return (c_string buf), lift_ (destroy rslt) w3)
    | (None, w3) => (Crash, w3)
    end.

(** [std::string str() const] *)
Definition str (self : object) (w : world)
  : result (list byte) * world :=
  let '(p, w1) := PyObject_Str (_obj self) w in
  let '(rslt, w2) := lift (object_PyObject p) w1 in
  if is_null_ptr (operator_PyObject rslt)
  then (Throw, lift_ (destroy rslt) w2)
  else
    match lift (PyUnicode_AsUTF8 (operator_PyObject rslt)) w2 with
    | (Some buf, w3) => (Return (c_string buf), lift_ (destroy rslt) w3)
    | (None, w3) => (Crash, w3)
    end.

(** The body shared by the three overloads of [call]: [args] and [kw] are
    the pointers passed, null where the overload passes [NULL]. *)
Definition call_with (self : object) (args kw : PyObject) (w : world)
  : result object * world :=
  let '(rslt, w1) :=
    PyEval_CallObjectWithKeywords (operator_PyObject self) args kw w in
  if is_null_ptr rslt then (Throw, w1)
  else
    let '(p, w2) := lift (lose_ref rslt) w1 in
    let '(h, w3) := lift (object_PyObject p) w2 in
    (Return h, w3).


Definition call_args (self args_tup : object)
  : world -> result object * world :=
  call_with self (operator_PyObject args_tup) NULL.

Definition call_args_kw (self args_tup kw_dict : object)
  : world -> result object * world :=
  call_with self (operator_PyObject args_tup) (operator_PyObject kw_dict).

(** The body shared by the three overloads of [mcall] that take a
    [const char*]; the local handle [method] is destroyed on both ways
    out. *)
Definition mcall_with (self : object) (nm : list byte) (args kw : PyObject)
  (w : world) : result object * world :=
  match attr self nm w with
  | (Return method, w1) =>
      let '(rslt, w2) :=
        PyEval_CallObjectWithKeywords (operator_PyObject method) args kw
          w1 in
      if is_null_ptr rslt then (Throw, lift_ (destroy method) w2)
      else
        let '(p, w3) := lift (lose_ref rslt) w2 in
        let '(h, w4) := lift (object_PyObject p) w3 in
        (Return h, lift_ (destroy method) w4)
  | (Throw, w1) => (Throw, w1)
  | (Crash, w1) => (Crash, w1)
  end.

(** [object mcall(const char* nm)] and its overloads with arguments *)
Definition mcall (self : object) (nm : list byte)
  : world -> result object * world :=
  mcall_with self nm NULL NULL.

Definition mcall_args (self : object) (nm : list byte) (args_tup : object)
  : world -> result object * world :=
  mcall_with self nm (operator_PyObject args_tup) NULL.

Definition mcall_args_kw (self : object) (nm : list byte)
  (args_tup kw_dict : object) : world -> result object * world :=
  mcall_with self nm (operator_PyObject args_tup)
    (operator_PyObject kw_dict).

(** [object mcall(const std::string& nm)] and its overloads:
    [return mcall(nm.c_str(), ...)] *)
Definition mcall_string (self : object) (nm : list byte)
  : world -> result object * world :=
  mcall self (c_str nm).

Definition mcall_string_args (self : object) (nm : list byte)
  (args_tup : object) : world -> result object * world :=
  mcall_args self (c_str nm) args_tup.

Definition mcall_string_args_kw (self : object) (nm : list byte)
  (args_tup kw_dict : object) : world -> result object * world :=
  mcall_args_kw self (c_str nm) args_tup kw_dict.

(** [bool is_callable() const] *)
Definition is_callable (self : object) (w : world) : bool :=
  Z.eqb (PyCallable_Check (_obj self) w) 1.

(** [int hash() const] *)
Definition hash (self : object) (w : world) : result Z * world :=
  let '(h, w1) := PyObject_Hash (_obj self) w in
  let rslt := cast_int h in
  if Z.eqb rslt (-1) && PyErr_Occurred (rt w1) then (Throw, w1)
  else (Return rslt, w1).

(** [bool is_true() const] *)
Definition is_true (self : object) (w : world) : bool * world :=
  let '(t, w1) := PyObject_IsTrue (_obj self) w in
  (Z.eqb t 1, w1).

(** [object type() const]: [return lose_ref(result);] converts the pointer
    with [object(PyObject* obj)]. *)
Definition type (self : object) (w : world) : result object * world :=
  let '(rslt, w1) := PyObject_Type (_obj self) w in
  if is_null_ptr rslt then (Throw, w1)
  else
    let '(p, w2) := lift (lose_ref rslt) w1 in
    let '(h, w3) := lift (object_PyObject p) w2 in
    (Return h, w3).

(** [object is_int() const], [is_float], [is_complex], [is_string]: the
    [bool] of the test is converted with [object(bool)]. *)
Definition is_int (self : object) (r : runtime) : result object * runtime :=
  match PyLong_Check (_obj self) r with
  | None => (Crash, r)
  | Some c => let '(h, r1) := object_bool (Z.eqb c 1) r in (Return h, r1)
  end.

Definition is_float (self : object) (r : runtime)
  : result object * runtime :=
  match PyFloat_Check (_obj self) r with
  | None => (Crash, r)
  | Some c => let '(h, r1) := object_bool (Z.eqb c 1) r in (Return h, r1)
  end.

Definition is_complex (self : object) (r : runtime)
  : result object * runtime :=
  match PyComplex_Check (_obj self) r with
  | None => (Crash, r)
  | Some c => let '(h, r1) := object_bool (Z.eqb c 1) r in (Return h, r1)
  end.

Definition is_string (self : object) (r : runtime)
  : result object * runtime :=
  match PyUnicode_Check (_obj self) r with
  | None => (Crash, r)
  | Some c =>
      let '(h, r1) := object_bool (Z.eqb (if c then 1 else 0) 1) r in
      (Return h, r1)
  end.

(** [int size() const] *)
Definition size (self : object) (w : world) : result Z * world :=
  let '(n, w1) := PyObject_Size (_obj self) w in
  let rslt := cast_int n in
  if Z.eqb rslt (-1) then (Throw, w1) else (Return rslt, w1).

(** [int len() const], [int length() const] *)
Definition len (self : object) (w : world) : result Z * world :=
  size self w.

Definition length (self : object) (w : world) : result Z * world :=
  size self w.

End py.

(** ** Vocabulary of the properties *)
Module Props.
Import Python py.

(** The handle holds a counted reference it must release. *)
Definition owning (h : object) : bool := negb (is_null_ptr (_own h)).


(** The class invariant stated at the declaration of [_own]: [_own] is
    [_obj] or zero. *)
Definition invariant (h : object) : bool :=
  is_null_ptr (_own h) || N.eqb (_own h) (_obj h).

(** The calls made between two states of the runtime. *)
Definition since (r r' : runtime) : list event :=
  skipn (List.length (log r)) (log r').

(** The pointers released ([Py_DECREF]) by a run of calls, in order. *)
Definition released (evs : list event) : list PyObject :=
  flat_map (fun e => match e with Decref p => [p] | _ => [] end) evs.




(** The value of [PyObject_RichCompareBool] for an answer of the dynamic
    value. *)
Definition as_int (a : answer bool) : Z :=
  match a with
  | Ok true => 1
  | Ok false => 0
  | Raises _ => -1
  end.

(** The log of [r'] continues the log of [r]. *)
Definition extends (r r' : runtime) : Prop :=
  exists evs, log r' = log r ++ evs.

(** The scalar query [q] of the runtime fails on [p]: it leaves an error
    set. *)
Definition query_fails {A : Type} (q : PyObject -> runtime -> A * runtime)
  (p : PyObject) (r : runtime) : bool :=
  PyErr_Occurred (snd (q p r)).

(** A cast ends in a typed conversion error: it leaves by [throw] with a
    [TypeError] carrying [msg] set, and the last two calls it made cleared
    the error indicator and set that error. *)
Definition typed_conversion_error {A : Type} (msg : string) (r : runtime)
  (out : result A * runtime) : Prop :=
  fst out = Throw /\
  err (snd out) = Some (PyExc_TypeError, msg) /\
  exists before,
    since r (snd out) = before ++ [ErrClear; ErrSet PyExc_TypeError msg].

(** A text cast fails fast: it leaves by [throw] with a [TypeError]
    carrying [msg] set, having made no other call. *)
Definition fails_fast {A : Type} (msg : string) (r : runtime)
  (out : result A * runtime) : Prop :=
  fst out = Throw /\
  err (snd out) = Some (PyExc_TypeError, msg) /\
  since r (snd out) = [ErrSet PyExc_TypeError msg].

(** *** A small heap for the examples

    [1] is a mapping holding [2] under the key [3]; [2] and [6] are the
    integers 7 and 9; [3] is the text "k"; [4] is the none object; [5] is
    an empty sequence. *)
Definition demo_refcnt (p : PyObject) : Z :=
  if N.leb 1 p && N.leb p 6 then 1 else 0.

Definition demo_val (p : PyObject) : pyval :=
  match p with
  | 2%N => PyLong 7
  | 3%N => PyUnicode ["k"%byte]
  | 4%N => PyNone
  | 6%N => PyLong 9
  | _ => PyOther
  end.

Definition demo_items (o k : PyObject) : answer PyObject :=
  match o, k with
  | 1%N, 3%N => Ok 2%N
  | 1%N, _ => Raises PyExc_KeyError
  | 5%N, _ => Raises PyExc_IndexError
  | _, _ => Raises PyExc_TypeError
  end.

Definition demo_rejects (o k v : PyObject) : option PyExc :=
  match o with
  | 1%N => None
  | 5%N => Some PyExc_IndexError
  | _ => Some PyExc_TypeError
  end.

Definition demo_compare (o1 o2 : PyObject) (op : cmp_op) : answer bool :=
  match demo_val o1, demo_val o2 with
  | PyLong a, PyLong b =>
      Ok match op with
         | Py_LT => a <? b
         | Py_LE => a <=? b
         | Py_EQ => a =? b
         | Py_NE => negb (a =? b)
         | Py_GT => b <? a
         | Py_GE => b <=? a
         end
  | _, _ =>
      match op with
      | Py_EQ => Ok (N.eqb o1 o2)
      | Py_NE => Ok (negb (N.eqb o1 o2))
      | _ => Raises PyExc_TypeError
      end
  end.

(** A runtime whose values answer every [>] with true and raise on every
    other comparison of two objects. *)
Definition lopsided : runtime :=
  mkRuntime demo_refcnt demo_val demo_items demo_rejects
            (fun o1 o2 op => match op with
                             | Py_GT => Ok true
                             | Py_EQ =>
                                 if N.eqb o1 o2 then Ok true
                                 else Raises PyExc_TypeError
                             | Py_NE =>
                                 if N.eqb o1 o2 then Ok false
                                 else Raises PyExc_TypeError
                             | _ => Raises PyExc_TypeError
                             end)
            (fun _ => Raises PyExc_OverflowError) None 6%N []
            (fun _ => None).

Definition demo : runtime :=
  mkRuntime demo_refcnt demo_val demo_items demo_rejects demo_compare
            (fun _ => Raises PyExc_OverflowError) None 6%N []
            (fun _ => None).

(** The example heap in a runtime that shares its two integer objects
    and its one-character text, as CPython does for small integers and
    for one-character strings. *)
Definition sharing : runtime :=
  mkRuntime demo_refcnt demo_val demo_items demo_rejects demo_compare
            (fun _ => Raises PyExc_OverflowError) None 6%N []
            (fun v =>
               if pyval_eqb v (PyLong 7) then Some 2%N
               else if pyval_eqb v (PyLong 9) then Some 6%N
               else if pyval_eqb v (PyUnicode ["k"%byte]) then Some 3%N
               else None).

(** The runtime answers [==] and [!=] of an object with itself by
    identity, as [PyObject_RichCompareBool] does. *)
Definition identity_shortcut (r : runtime) : Prop :=
  forall o, compare r o o Py_EQ = Ok true /\ compare r o o Py_NE = Ok false.

(** *** Vocabulary of the further properties *)

(** What one reference to [p] adds to the count read at [q]: 1 when [p]
    is an object and [q] is [p], else 0. *)
Definition hit (q p : PyObject) : Z :=
  if negb (is_null_ptr p) && N.eqb q p then 1 else 0.

(** A constructor result [out], made from the runtime [r], owns one new
    reference to an object with the payload [v].  The object is either
    new, with the count 1, or the object the runtime shares for [v], with
    its count one higher than in [r].  No other object is touched.
    Destroying the handle releases that one reference: it deallocates a new
    object, and puts every count back where it was in [r] for a shared
    one. *)
Definition reference_owner (r : runtime) (v : pyval)
  (out : object * runtime) : Prop :=
  let h := fst out in
  let r1 := snd out in
  let p := _obj h in
  owning h = true /\ invariant h = true /\ _own h = p /\
  ob_val r1 p = v /\
  (forall q, q <> p ->
     ob_refcnt r1 q = ob_refcnt r q /\ ob_val r1 q = ob_val r q) /\
  match shared r v with
  | None =>
      since r r1 = [New p] /\ ob_refcnt r1 p = 1 /\
      since r1 (destroy h r1) = [Decref p; Dealloc p] /\
      ob_refcnt (destroy h r1) p = 0
  | Some s =>
      p = s /\ since r r1 = [Incref p] /\ ob_val r p = v /\
      ob_refcnt r1 p = ob_refcnt r p + 1 /\
      released (since r1 (destroy h r1)) = [p] /\
      (forall q, ob_refcnt (destroy h r1) q = ob_refcnt r q)
  end.

(** *** A small world for the examples

    The heap of [demo] with two more objects: [7] is a function, which
    returns the integer [9] whatever it is called with, and [8] is the type
    of every object.  The mapping [1] has the attributes [k], the integer
    [7], and [f], the function; the none object [4] rejects every
    attribute store; the mapping and the sequence are unhashable, and the
    truth test and the [repr] of the mapping raise. *)
Definition demo_attrs (o : PyObject) (name : list byte) : answer PyObject :=
  match o with
  | 1%N => if bytes_eqb name ["k"%byte] then Ok 2%N
           else if bytes_eqb name ["f"%byte] then Ok 7%N
           else Raises PyExc_AttributeError
  | _ => Raises PyExc_AttributeError
  end.

Definition demo_behaviour : behaviour :=
  mkBehaviour
    (fun o _ _ => match o with
                  | 4%N => Some PyExc_AttributeError
                  | _ => None
                  end)
    (fun f _ _ => match f with
                  | 7%N => Ok 6%N
                  | _ => Raises PyExc_TypeError
                  end)
    (fun o => match o with
              | 1%N | 5%N => Raises PyExc_TypeError
              | 2%N => Ok 7
              | 3%N => Ok (2 ^ 32 + 7)
              | 6%N => Ok 9
              | _ => Ok 0
              end)
    (fun o => match o with
              | 1%N | 3%N => Ok 1
              | 5%N => Ok 0
              | _ => Raises PyExc_TypeError
              end)
    (fun o => match o with
              | 1%N => Raises PyExc_ValueError
              | 5%N => Ok false
              | _ => Ok true
              end)
    (fun o => N.eqb o 7)
    (fun o => match o with
              | 1%N => Raises PyExc_ValueError
              | 2%N => Ok ["7"%byte]
              | 6%N => Ok ["9"%byte]
              | _ => Ok ["?"%byte]
              end)
    (fun o => match o with
              | 1%N => Raises PyExc_ValueError
              | 2%N => Ok ["7"%byte]
              | 6%N => Ok ["9"%byte]
              | _ => Ok ["?"%byte]
              end)
    (fun _ => 8%N).

Definition demo_world : world :=
  mkWorld
    (mkRuntime (fun p => if N.leb 1 p && N.leb p 8 then 1 else 0)
       demo_val demo_items demo_rejects demo_compare
       (fun _ => Raises PyExc_OverflowError) None 8%N [] (fun _ => None))
    demo_attrs demo_behaviour.

(** A kind test run in [r] answers [b]: it returns a handle that owns one
    new reference to an integer object with the value 1 for true and 0
    for false, and the cast of that handle to [int] gives the value
    back. *)
Definition answers (r : runtime) (b : bool)
  (out : result object * runtime) : Prop :=
  exists h,
    fst out = Return h /\
    reference_owner r (PyLong (if b then 1 else 0)) (h, snd out) /\
    fst (operator_int h (snd out)) = Return (if b then 1 else 0).

(** The world of the examples over a runtime that shares its integer
    objects and its one-character text, and in which the string form of
    the text [3] is the text itself. *)
Definition sharing_world : world :=
  mkWorld
    (mkRuntime (fun p => if N.leb 1 p && N.leb p 8 then 1 else 0)
       demo_val demo_items demo_rejects demo_compare
       (fun _ => Raises PyExc_OverflowError) None 8%N [] (cached sharing))
    demo_attrs
    (mkBehaviour (setattr_rejects demo_behaviour) (call_of demo_behaviour)
       (hash_of demo_behaviour) (size_of demo_behaviour)
       (truth_of demo_behaviour) (callable_of demo_behaviour)
       (repr_of demo_behaviour)
       (fun o => if N.eqb o 3 then Ok ["k"%byte]
                 else str_of demo_behaviour o)
       (type_of demo_behaviour)).

(** What the handle of [repr] and [str] does to the text object [p] the
    runtime returned in [r1], having made it from [r]. *)
Definition text_kept (r : runtime) (bytes : list byte) (p : PyObject)
  (r1 r' : runtime) : Prop :=
  is_null_ptr p = false /\
  ob_val r' p = PyUnicode bytes /\
  since r1 r' =
    [Incref p; Decref p] ++
    (if ob_refcnt r1 p =? 0 then [Dealloc p] else []) /\
  (forall q, ob_refcnt r' q = ob_refcnt r1 q) /\
  match shared r (PyUnicode bytes) with
  | None =>
      since r r1 = [New p] /\ ob_refcnt r' p = 1 /\
      since r r' = [New p; Incref p; Decref p] /\
      (forall q, q <> p -> ob_refcnt r' q = ob_refcnt r q)
  | Some s =>
      p = s /\ since r r1 = [Incref p] /\
      (forall q, ob_refcnt r' q = ob_refcnt r q + hit q p)
  end.


(** The idiom [object(lose_ref(p))] run in a world: the raw decrement
    followed by the increment of the constructor. *)
Definition take_over (p : PyObject) (w : world) : world :=
  with_rt w (Py_XINCREF p (snd (lose_ref p (rt w)))).

(** No attribute lookup of [w] answers with a null pointer. *)
Definition attrs_well_formed (w : world) : Prop :=
  forall o name p, attrs w o name = Ok p -> is_null_ptr p = false.

(** The world of the examples with every size equal to 2^32 - 1. *)
Definition vast_world : world :=
  mkWorld (rt demo_world) demo_attrs
    (mkBehaviour (setattr_rejects demo_behaviour) (call_of demo_behaviour)
       (hash_of demo_behaviour) (fun _ => Ok (2 ^ 32 - 1))
       (truth_of demo_behaviour) (callable_of demo_behaviour)
       (repr_of demo_behaviour) (str_of demo_behaviour)
       (type_of demo_behaviour)).

End Props.

(** ** Properties *)
Import Python py Props.

(** *** Lemmas on the count primitives *)

Lemma since_app (r r' : runtime) (evs : list event) :
  log r' = log r ++ evs -> since r r' = evs.
Proof.
  intros E. unfold since. rewrite E.
  rewrite skipn_app, skipn_all, Nat.sub_diag. reflexivity.
Qed.

Lemma since_refl (r : runtime) : since r r = [].
Proof. apply since_app. now rewrite app_nil_r. Qed.

Lemma log_Py_XINCREF (p : PyObject) (r : runtime) :
  log (Py_XINCREF p r) =
  log r ++ (if is_null_ptr p then [] else [Incref p]).
Proof.
  unfold Py_XINCREF. destruct (is_null_ptr p); simpl.
  - now rewrite app_nil_r.
  - reflexivity.
Qed.

Lemma log_Py_XDECREF (p : PyObject) (r : runtime) :
  log (Py_XDECREF p r) =
  log r ++ (if is_null_ptr p then []
            else Decref p ::
                 (if ob_refcnt r p - 1 =? 0 then [Dealloc p] else [])).
Proof.
  unfold Py_XDECREF, Py_DECREF. destruct (is_null_ptr p); simpl.
  - now rewrite app_nil_r.
  - destruct (ob_refcnt r p - 1 =? 0); simpl.
    + now rewrite <- app_assoc.
    + reflexivity.
Qed.

Lemma refcnt_Py_XINCREF (p : PyObject) (r : runtime) (q : PyObject) :
  ob_refcnt (Py_XINCREF p r) q =
  ob_refcnt r q + (if negb (is_null_ptr p) && N.eqb q p then 1 else 0).
Proof.
  unfold Py_XINCREF, Py_INCREF, upd. destruct (is_null_ptr p); simpl.
  - lia.
  - destruct (N.eqb_spec q p); subst; lia.
Qed.

Lemma refcnt_Py_XDECREF (p : PyObject) (r : runtime) (q : PyObject) :
  ob_refcnt (Py_XDECREF p r) q =
  ob_refcnt r q - (if negb (is_null_ptr p) && N.eqb q p then 1 else 0).
Proof.
  unfold Py_XDECREF, Py_DECREF, upd. destruct (is_null_ptr p); simpl.
  - lia.
  - destruct (ob_refcnt r p - 1 =? 0); simpl;
      destruct (N.eqb_spec q p); subst; lia.
Qed.

Lemma object_copy_eq (other : object) (r : runtime) :
  object_copy other r =
  (mkObject (_obj other) (_obj other), Py_XINCREF (_obj other) r).
Proof. reflexivity. Qed.

Lemma owning_invariant (h : object) :
  owning h = true -> invariant h = true ->
  is_null_ptr (_obj h) = false /\ _own h = _obj h.
Proof.
  unfold owning, invariant. intros O I.
  destruct (is_null_ptr (_own h)) eqn:E; [discriminate|]. simpl in I.
  apply N.eqb_eq in I. rewrite <- I. auto.
Qed.


(** *** Destruction and copies (object::~object, object::grab_ref) *)

(** C1 (as the code has it).  Destroying a handle releases its counted
    reference exactly once when the handle is owning and not at all when it
    is borrowing, and changes no other count.  For an owning handle [h],
    the copy constructor acquires one reference; destroying the copy alone
    brings the count back to its value before the copy, and destroying the
    copy and [h] leaves it one below that value: the reference [h] itself
    held is released, once. *)
Theorem destroy_releases_once_copy_is_balanced (h : object) (r : runtime) :
  released (since r (destroy h r)) = (if owning h then [_own h] else []) /\
  (forall q,
     ob_refcnt (destroy h r) q =
     ob_refcnt r q - (if owning h && N.eqb q (_own h) then 1 else 0)) /\
  (owning h = true -> invariant h = true ->
   let c := fst (object_copy h r) in
   let r1 := snd (object_copy h r) in
   owning c = true /\ _obj c = _obj h /\
   ob_refcnt r1 (_obj h) = ob_refcnt r (_obj h) + 1 /\
   ob_refcnt (destroy c r1) (_obj h) = ob_refcnt r (_obj h) /\
   ob_refcnt (destroy h (destroy c r1)) (_obj h) = ob_refcnt r (_obj h) - 1).
Proof.
  split; [|split].
  - unfold destroy, owning.
    rewrite (since_app _ _ _ (log_Py_XDECREF (_own h) r)).
    destruct (is_null_ptr (_own h)); simpl; [reflexivity|].
    destruct (ob_refcnt r (_own h) - 1 =? 0); reflexivity.
  - intros q. unfold destroy, owning. apply refcnt_Py_XDECREF.
  - intros O I. destruct (owning_invariant h O I) as [Hn Ho].
    rewrite object_copy_eq. cbn [fst snd _obj _own]. unfold destroy.
    cbn [_own]. rewrite Ho.
    rewrite !refcnt_Py_XDECREF, !refcnt_Py_XINCREF.
    rewrite Hn, N.eqb_refl. cbn [negb andb].
    unfold owning. cbn [_own]. rewrite Hn.
    repeat split; lia.
Qed.

Lemma destroy_releases_once_copy_is_balanced_witness :
  owning (mkObject 2%N 2%N) = true /\
  invariant (mkObject 2%N 2%N) = true /\
  let c := fst (object_copy (mkObject 2%N 2%N) demo) in
  let r1 := snd (object_copy (mkObject 2%N 2%N) demo) in
  ob_refcnt (destroy (mkObject 2%N 2%N) (destroy c r1)) 2%N =
  ob_refcnt demo 2%N - 1.
Proof.
  split; [reflexivity|split; [reflexivity|]].
  exact (proj2 (proj2 (proj2 (proj2
    (proj2 (proj2 (destroy_releases_once_copy_is_balanced
                     (mkObject 2%N 2%N) demo)) eq_refl eq_refl))))).
Defined.

(** The integer [7] of the example heap has count 1 and is held by the
    owning handle [h]; after [object c(h)] and the destruction of [c] and
    [h] its count is 0, not the 1 it was before the copy. *)
Lemma copy_destroy_both_counterexample :
  let h := mkObject 2%N 2%N in
  owning h = true /\ invariant h = true /\
  ob_refcnt demo (_obj h) = 1 /\
  ob_refcnt (destroy h (destroy (fst (object_copy h demo))
                                (snd (object_copy h demo)))) (_obj h) = 0 /\
  ob_refcnt (destroy h (destroy (fst (object_copy h demo))
                                (snd (object_copy h demo)))) (_obj h)
  <> ob_refcnt demo (_obj h).
Proof. cbv. repeat split; discriminate. Qed.

(** *** Copy-assignment (object::operator=, object::grab_ref) *)

Lemma assign_eq (h other : object) (r : runtime) :
  assign h other r =
  (mkObject (_obj other) (_obj other),
   Py_XDECREF (_own h) (Py_XINCREF (_obj other) r)).
Proof. reflexivity. Qed.





(** *** Indexed access (object::operator[]) *)

Lemma items_Py_XINCREF (p : PyObject) (r : runtime) :
  items (Py_XINCREF p r) = items r.
Proof. unfold Py_XINCREF. now destruct (is_null_ptr p). Qed.

Lemma err_Py_XINCREF (p : PyObject) (r : runtime) :
  err (Py_XINCREF p r) = err r.
Proof. unfold Py_XINCREF. now destruct (is_null_ptr p). Qed.

Lemma err_Py_XDECREF (p : PyObject) (r : runtime) :
  err (Py_XDECREF p r) = err r.
Proof.
  unfold Py_XDECREF, Py_DECREF. destruct (is_null_ptr p); [reflexivity|].
  now destruct (_ =? 0).
Qed.

Lemma Py_XINCREF_NULL (r : runtime) : Py_XINCREF NULL r = r.
Proof. reflexivity. Qed.

Lemma Py_XDECREF_NULL (r : runtime) : Py_XDECREF NULL r = r.
Proof. reflexivity. Qed.

Lemma PyErr_ExceptionMatches_raise (exc e : PyExc) (r : runtime) :
  PyErr_ExceptionMatches exc (raise e r) = PyErr_GivenExceptionMatches e exc.
Proof. reflexivity. Qed.

(** C3 (as the code has it).  When the fetch of [operator[]] fails, a
    key-not-found error is cleared and a keyed reference with a null
    referent is returned; an index error leaves by [throw] with the error
    still set; a failure of any other kind is not thrown: the operator
    returns a keyed reference with a null referent as well. *)
Theorem index_throws_on_index_error_only
  (self key : object) (r : runtime) (e : PyExc) :
  items r (_obj self) (_obj key) = Raises e ->
  let kr := mkKeyedRef object_nullptr self (mkObject (_obj key) (_obj key)) in
  let out := operator_index self key r in
  fst out =
    (if PyErr_GivenExceptionMatches e PyExc_KeyError then Return kr
     else if PyErr_GivenExceptionMatches e PyExc_IndexError then Throw
     else Return kr) /\
  (PyErr_GivenExceptionMatches e PyExc_KeyError = true ->
   err (snd out) = None) /\
  (fst out = Throw -> err (snd out) = Some (e, EmptyString)).
Proof.
  intros H kr out. subst out kr. unfold operator_index.
  rewrite object_copy_eq. cbn [operator_PyObject _obj].
  unfold PyObject_GetItem. rewrite items_Py_XINCREF, H.
  cbn -[Py_XINCREF Py_XDECREF PyErr_GivenExceptionMatches
       PyErr_ExceptionMatches raise PyErr_Clear].
  rewrite !Py_XINCREF_NULL, !Py_XDECREF_NULL.
  rewrite !PyErr_ExceptionMatches_raise.
  destruct (PyErr_GivenExceptionMatches e PyExc_KeyError);
    [|destruct (PyErr_GivenExceptionMatches e PyExc_IndexError)];
    cbn [fst snd]; unfold destroy; cbn [_own];
    rewrite ?Py_XDECREF_NULL, ?Py_XINCREF_NULL,
      ?err_Py_XDECREF, ?err_Py_XINCREF;
    repeat split; try reflexivity; try discriminate.
Qed.

Lemma index_throws_on_index_error_only_witness :
  (items demo 5%N 2%N = Raises PyExc_IndexError /\
   fst (operator_index (mkObject 5%N 5%N) (mkObject 2%N 2%N) demo) = Throw /\
   err (snd (operator_index (mkObject 5%N 5%N) (mkObject 2%N 2%N) demo)) =
     Some (PyExc_IndexError, EmptyString)) /\
  (items demo 1%N 2%N = Raises PyExc_KeyError /\
   PyErr_GivenExceptionMatches PyExc_KeyError PyExc_KeyError = true /\
   fst (operator_index (mkObject 1%N 1%N) (mkObject 2%N 2%N) demo) =
     Return (mkKeyedRef object_nullptr (mkObject 1%N 1%N)
               (mkObject 2%N 2%N)) /\
   err (snd (operator_index (mkObject 1%N 1%N) (mkObject 2%N 2%N) demo)) =
     None).
Proof.
  destruct (index_throws_on_index_error_only
              (mkObject 5%N 5%N) (mkObject 2%N 2%N) demo
              PyExc_IndexError eq_refl) as (I1 & _ & I3).
  destruct (index_throws_on_index_error_only
              (mkObject 1%N 1%N) (mkObject 2%N 2%N) demo
              PyExc_KeyError eq_refl) as (K1 & K2 & _).
  split.
  - split; [reflexivity|]. split; [exact I1|exact (I3 I1)].
  - split; [reflexivity|]. split; [reflexivity|].
    split; [exact K1|exact (K2 eq_refl)].
Defined.

(** The integer [7] of the example heap is not subscriptable: the fetch
    fails with a type error, which is not a key-not-found condition, and
    [operator[]] returns a keyed reference with a null referent instead of
    throwing. *)
Lemma index_type_error_counterexample :
  let out := operator_index (mkObject 2%N 2%N) (mkObject 3%N 3%N) demo in
  items demo 2%N 3%N = Raises PyExc_TypeError /\
  PyErr_GivenExceptionMatches PyExc_TypeError PyExc_KeyError = false /\
  fst out <> Throw /\
  fst out = Return (mkKeyedRef object_nullptr (mkObject 2%N 2%N)
                      (mkObject 3%N 3%N)).
Proof. cbv. repeat split; discriminate. Qed.

(** *** Assignment through a keyed reference (keyed_ref::operator=,
    object::set_item) *)

Lemma rejects_Py_XINCREF (p : PyObject) (r : runtime) :
  rejects (Py_XINCREF p r) = rejects r.
Proof. unfold Py_XINCREF. now destruct (is_null_ptr p). Qed.

Lemma rejects_Py_XDECREF (p : PyObject) (r : runtime) :
  rejects (Py_XDECREF p r) = rejects r.
Proof.
  unfold Py_XDECREF, Py_DECREF. destruct (is_null_ptr p); [reflexivity|].
  now destruct (_ =? 0).
Qed.



(** The write-back into the empty sequence [5] of the example heap is
    rejected: the operator throws, and the reference's referent is already
    the new value [9]. *)
Example keyed_assign_rejected :
  let out := keyed_ref_assign
               (mkKeyedRef object_nullptr (mkObject 5%N 5%N)
                  (mkObject 2%N 2%N))
               (mkObject 6%N 6%N) demo in
  fst (fst out) = Throw /\
  base (snd (fst out)) = mkObject 6%N 6%N /\
  since demo (snd out) =
    [Incref 6%N; SetItem 5%N 2%N 6%N; ErrSet PyExc_IndexError EmptyString].
Proof. cbv. repeat split. Qed.

(** *** Comparison operators (object::operator== and its siblings) *)

(** C5 (the behaviour of the code).  When the rich
    comparison raises, each of the six comparison operators returns
    normally: the [-1] of [PyObject_RichCompareBool] is converted to [true],
    nothing is thrown, and the error of the comparison stays set. *)
Theorem comparison_failure_returns_true
  (op : cmp_op) (self other : object) (r : runtime) (e : PyExc) :
  compare r (_obj self) (_obj other) op = Raises e ->
  fst (compare_with op self other r) = Return true /\
  err (snd (compare_with op self other r)) = Some (e, EmptyString).
Proof.
  intros H. unfold compare_with, PyObject_RichCompareBool, operator_PyObject.
  rewrite H. split; reflexivity.
Qed.

Lemma comparison_failure_returns_true_witness :
  compare demo 2%N 3%N Py_LT = Raises PyExc_TypeError /\
  fst (operator_lt (mkObject 2%N 2%N) (mkObject 3%N 3%N) demo) = Return true /\
  err (snd (operator_lt (mkObject 2%N 2%N) (mkObject 3%N 3%N) demo)) =
    Some (PyExc_TypeError, EmptyString).
Proof.
  split; [reflexivity|].
  exact (comparison_failure_returns_true Py_LT (mkObject 2%N 2%N)
           (mkObject 3%N 3%N) demo PyExc_TypeError eq_refl).
Defined.

(** The runtimes of the examples answer by identity. *)
Lemma examples_identity_shortcut :
  identity_shortcut demo /\ identity_shortcut lopsided /\
  identity_shortcut sharing.
Proof.
  assert (D : forall o, demo_compare o o Py_EQ = Ok true /\
                        demo_compare o o Py_NE = Ok false).
  { intros o. unfold demo_compare. destruct (demo_val o);
      rewrite ?Z.eqb_refl, ?N.eqb_refl; split; reflexivity. }
  split; [exact D|]. split; [|exact D].
  intros o. cbn. rewrite N.eqb_refl. split; reflexivity.
Qed.

(** *** Casts to native types (object::operator int and its siblings) *)

Lemma extends_refl (r : runtime) : extends r r.
Proof. exists []. now rewrite app_nil_r. Qed.

Lemma extends_raise (e : PyExc) (r : runtime) : extends r (raise e r).
Proof. now exists [ErrSet e EmptyString]. Qed.

Lemma extends_trans (r1 r2 r3 : runtime) :
  extends r1 r2 -> extends r2 r3 -> extends r1 r3.
Proof.
  intros [a A] [b B]. exists (a ++ b). now rewrite B, A, app_assoc.
Qed.

Lemma extends_PyLong_AsLong (p : PyObject) (r : runtime) :
  extends r (snd (PyLong_AsLong p r)).
Proof.
  unfold PyLong_AsLong. destruct (is_null_ptr p); [apply extends_raise|].
  destruct (ob_val r p); try apply extends_raise.
  destruct (_ && _); [apply extends_refl|apply extends_raise].
Qed.

Lemma extends_PyFloat_AsDouble (p : PyObject) (r : runtime) :
  extends r (snd (PyFloat_AsDouble p r)).
Proof.
  unfold PyFloat_AsDouble. destruct (is_null_ptr p); [apply extends_raise|].
  destruct (ob_val r p); try apply extends_raise; try apply extends_refl.
  destruct (long_as_double r z); [apply extends_refl|apply extends_raise].
Qed.

Lemma extends_PyComplex_RealAsDouble
  (p : PyObject) (r : runtime) (re : double) (r1 : runtime) :
  PyComplex_RealAsDouble p r = Some (re, r1) -> extends r r1.
Proof.
  unfold PyComplex_RealAsDouble. destruct (Py_TYPE p r) as [[]|];
    try discriminate; intros X; inversion X; subst;
    try apply extends_refl;
    match goal with
    | H : PyFloat_AsDouble _ _ = _ |- _ =>
        pose proof (extends_PyFloat_AsDouble p r) as E;
        rewrite H in E; exact E
    end.
Qed.

Lemma extends_PyComplex_ImagAsDouble
  (p : PyObject) (r : runtime) (im : double) (r1 : runtime) :
  PyComplex_ImagAsDouble p r = Some (im, r1) -> extends r r1.
Proof.
  unfold PyComplex_ImagAsDouble. destruct (Py_TYPE p r) as [[]|];
    try discriminate; intros X; inversion X; subst; apply extends_refl.
Qed.

Lemma clear_then_fail {A : Type} (msg : string) (r r1 : runtime) :
  extends r r1 ->
  typed_conversion_error msg r
    (@fail A PyExc_TypeError msg (PyErr_Clear r1)).
Proof.
  intros [evs E]. unfold typed_conversion_error, fail. cbn [fst snd].
  repeat split. exists evs. apply since_app. simpl.
  rewrite E, <- !app_assoc. reflexivity.
Qed.

(** C6 (as the code has it).  When the scalar query of the runtime
    fails on the handle's value, each of the casts to [int], [float],
    [double] and [std::complex<double>] clears the error indicator and
    leaves with a [TypeError] of its own in place of the runtime's error.
    The casts to [std::string] and [const char*] of a value that is not of
    text kind fail at once with a [TypeError], without asking the runtime
    for a string form.  On a handle that wraps no value the casts to
    complex, [std::string] and [const char*] read through the null
    pointer.  An integer that fits a C long is no failure of the query:
    the cast to [int] returns it narrowed to [int]. *)
Theorem casts_fail_with_typed_conversion_error
  (double_to_float : double -> float) (r : runtime) :
  (forall h, query_fails PyLong_AsLong (_obj h) r = true ->
     typed_conversion_error "cannot convert value to integer" r
       (operator_int h r)) /\
  (forall h, query_fails PyFloat_AsDouble (_obj h) r = true ->
     typed_conversion_error "cannot convert value to float" r
       (operator_float double_to_float h r)) /\
  (forall h, query_fails PyFloat_AsDouble (_obj h) r = true ->
     typed_conversion_error "cannot convert value to double" r
       (operator_double h r)) /\
  (forall h re r1 im r2,
     PyComplex_RealAsDouble (_obj h) r = Some (re, r1) ->
     PyComplex_ImagAsDouble (_obj h) r1 = Some (im, r2) ->
     PyErr_Occurred r2 = true ->
     typed_conversion_error "cannot convert value to complex" r
       (operator_complex h r)) /\
  (forall h, PyUnicode_Check (_obj h) r = Some false ->
     fails_fast "cannot convert value to std::string" r
       (operator_string h r)) /\
  (forall h, PyUnicode_Check (_obj h) r = Some false ->
     fails_fast "cannot convert value to const char*" r
       (operator_const_char h r)) /\
  (forall h, is_null h = true ->
     operator_complex h r = (Crash, r) /\
     operator_string h r = (Crash, r) /\
     operator_const_char h r = (Crash, r)) /\
  (forall h v,
     is_null h = false -> ob_val r (_obj h) = PyLong v ->
     LONG_MIN <= v <= LONG_MAX -> err r = None ->
     operator_int h r = (Return (cast_int v), r)).
Proof.
  unfold query_fails.
  split; [|split; [|split; [|split; [|split; [|split; [|split]]]]]].
  - intros h H. unfold operator_int.
    pose proof (extends_PyLong_AsLong (_obj h) r) as X.
    destruct (PyLong_AsLong (_obj h) r) as [v r1]. cbn [snd] in *.
    rewrite H. now apply clear_then_fail.
  - intros h H. unfold operator_float.
    pose proof (extends_PyFloat_AsDouble (_obj h) r) as X.
    destruct (PyFloat_AsDouble (_obj h) r) as [v r1]. cbn [snd] in *.
    rewrite H. now apply clear_then_fail.
  - intros h H. unfold operator_double.
    pose proof (extends_PyFloat_AsDouble (_obj h) r) as X.
    destruct (PyFloat_AsDouble (_obj h) r) as [v r1]. cbn [snd] in *.
    rewrite H. now apply clear_then_fail.
  - intros h re r1 im r2 Re Im H. unfold operator_complex.
    rewrite Re, Im, H. apply clear_then_fail.
    eapply extends_trans;
      [eapply extends_PyComplex_RealAsDouble; eauto
      |eapply extends_PyComplex_ImagAsDouble; eauto].
  - intros h H. unfold operator_string, fails_fast. rewrite H. cbn.
    repeat split. now apply since_app.
  - intros h H. unfold operator_const_char, fails_fast. rewrite H. cbn.
    repeat split. now apply since_app.
  - intros h H. unfold is_null in H.
    unfold operator_complex, operator_string, operator_const_char,
      PyComplex_RealAsDouble, PyUnicode_Check, Py_TYPE.
    rewrite H. repeat split.
  - intros h v Hn V Hv E. unfold is_null in Hn.
    unfold operator_int, PyLong_AsLong. rewrite Hn, V.
    replace ((LONG_MIN <=? v) && (v <=? LONG_MAX)) with true
      by (symmetry; apply andb_true_iff; split; apply Z.leb_le; lia).
    unfold PyErr_Occurred. now rewrite E.
Qed.

Lemma casts_fail_with_typed_conversion_error_witness :
  let text := mkObject 3%N 3%N in
  let seven := mkObject 2%N 2%N in
  (query_fails PyLong_AsLong (_obj text) demo = true /\
   typed_conversion_error "cannot convert value to integer" demo
     (operator_int text demo)) /\
  (query_fails PyFloat_AsDouble (_obj text) demo = true /\
   typed_conversion_error "cannot convert value to float" demo
     (operator_float (fun d => d) text demo) /\
   typed_conversion_error "cannot convert value to double" demo
     (operator_double text demo)) /\
  (PyComplex_RealAsDouble (_obj text) demo
   = Some (double_minus_one, raise PyExc_TypeError demo) /\
   PyComplex_ImagAsDouble (_obj text) (raise PyExc_TypeError demo)
   = Some (double_zero, raise PyExc_TypeError demo) /\
   PyErr_Occurred (raise PyExc_TypeError demo) = true /\
   typed_conversion_error "cannot convert value to complex" demo
     (operator_complex text demo)) /\
  (PyUnicode_Check (_obj seven) demo = Some false /\
   fails_fast "cannot convert value to std::string" demo
     (operator_string seven demo) /\
   fails_fast "cannot convert value to const char*" demo
     (operator_const_char seven demo)) /\
  (is_null object_nullptr = true /\
   operator_string object_nullptr demo = (Crash, demo)) /\
  (is_null seven = false /\ ob_val demo (_obj seven) = PyLong 7 /\
   LONG_MIN <= 7 <= LONG_MAX /\ err demo = None /\
   operator_int seven demo = (Return (cast_int 7), demo)).
Proof.
  assert (L7 : LONG_MIN <= 7 <= LONG_MAX)
    by (unfold LONG_MIN, LONG_MAX; lia).
  pose proof (casts_fail_with_typed_conversion_error (fun d => d) demo)
    as (Hi & Hf & Hd & Hc & Hs & Hp & Hn & Hw).
  cbv zeta.
  split; [split; [reflexivity | exact (Hi (mkObject 3%N 3%N) eq_refl)]|].
  split; [split; [reflexivity |
          split; [exact (Hf (mkObject 3%N 3%N) eq_refl)
                 |exact (Hd (mkObject 3%N 3%N) eq_refl)]]|].
  split; [split; [reflexivity | split; [reflexivity | split; [reflexivity |
          exact (Hc (mkObject 3%N 3%N) _ _ _ _ eq_refl eq_refl eq_refl)]]]|].
  split; [split; [reflexivity |
          split; [exact (Hs (mkObject 2%N 2%N) eq_refl)
                 |exact (Hp (mkObject 2%N 2%N) eq_refl)]]|].
  split; [split; [reflexivity |
          exact (proj1 (proj2 (Hn object_nullptr eq_refl)))]|].
  split; [reflexivity | split; [reflexivity | split; [exact L7 |
          split; [reflexivity |
          exact (Hw (mkObject 2%N 2%N) 7 eq_refl eq_refl L7 eq_refl)]]]].
Defined.

(** In the example heap, a handle is made on the integer 2^32 + 5, which
    fits a C long and does not fit an [int].  The cast to [int] does not
    fail: it returns 5 and leaves no error set.  The handle that wraps no
    value is not of text kind, and its cast to [std::string] does not fail
    with a [TypeError]: it reads through the null pointer. *)
Lemma cast_without_typed_error_counterexample :
  let h := fst (object_long (2 ^ 32 + 5) demo) in
  let r1 := snd (object_long (2 ^ 32 + 5) demo) in
  (ob_val r1 (_obj h) = PyLong (2 ^ 32 + 5) /\
   INT_MAX < 2 ^ 32 + 5 /\
   fst (operator_int h r1) = Return 5 /\
   ~ typed_conversion_error "cannot convert value to integer" r1
       (operator_int h r1)) /\
  (is_null object_nullptr = true /\
   fst (operator_string object_nullptr demo) = Crash /\
   ~ fails_fast "cannot convert value to std::string" demo
       (operator_string object_nullptr demo)).
Proof.
  cbv zeta. split.
  - split; [reflexivity|]. split; [reflexivity|]. split; [reflexivity|].
    intros (X & _). discriminate X.
  - split; [reflexivity|]. split; [reflexivity|].
    intros (X & _). discriminate X.
Qed.

(** *** Three-way comparison (object::cmp) *)

Lemma compare_Py_XINCREF (p : PyObject) (r : runtime) :
  compare (Py_XINCREF p r) = compare r.
Proof. unfold Py_XINCREF. now destruct (is_null_ptr p). Qed.

Lemma PyObject_RichCompareBool_value
  (o1 o2 : PyObject) (op : cmp_op) (r : runtime) :
  fst (PyObject_RichCompareBool o1 o2 op r) = as_int (compare r o1 o2 op).
Proof.
  unfold PyObject_RichCompareBool, as_int.
  now destruct (compare r o1 o2 op) as [[|]|].
Qed.

Lemma compare_PyObject_RichCompareBool
  (o1 o2 : PyObject) (op : cmp_op) (r : runtime) :
  compare (snd (PyObject_RichCompareBool o1 o2 op r)) = compare r.
Proof.
  unfold PyObject_RichCompareBool.
  now destruct (compare r o1 o2 op) as [[|]|].
Qed.

(** C7 (as the code has it).  [cmp] returns the greater-than result of
    the rich-comparison primitive minus its less-than result.  When both
    calls answer, this is -1 if only [<] holds, 1 if only [>] holds and 0 if
    both or neither hold, so it lies between -1 and 1 also for an
    inconsistent ordering.  The difference is returned as it is: when [>]
    answers true and [<] raises, it is 1 - (-1) = 2. *)
Theorem cmp_is_greater_minus_less (self other : object) (r : runtime) :
  let gt := fst (PyObject_RichCompareBool (_obj self) (_obj other) Py_GT r) in
  let lt := fst (PyObject_RichCompareBool (_obj self) (_obj other) Py_LT r) in
  fst (cmp self other r) = Return (gt - lt) /\
  (forall bg bl,
     compare r (_obj self) (_obj other) Py_GT = Ok bg ->
     compare r (_obj self) (_obj other) Py_LT = Ok bl ->
     gt - lt = Z.b2z bg - Z.b2z bl /\ -1 <= gt - lt <= 1) /\
  (forall e,
     compare r (_obj self) (_obj other) Py_GT = Ok true ->
     compare r (_obj self) (_obj other) Py_LT = Raises e ->
     gt - lt = 2).
Proof.
  cbv zeta. split; [|split].
  - unfold cmp. rewrite object_copy_eq. unfold operator_PyObject.
    cbn [_obj].
    pose proof (PyObject_RichCompareBool_value (_obj self) (_obj other)
                  Py_GT (Py_XINCREF (_obj other) r)) as G.
    pose proof (compare_PyObject_RichCompareBool (_obj self) (_obj other)
                  Py_GT (Py_XINCREF (_obj other) r)) as C.
    destruct (PyObject_RichCompareBool (_obj self) (_obj other) Py_GT
                (Py_XINCREF (_obj other) r)) as [gt r2].
    pose proof (PyObject_RichCompareBool_value (_obj self) (_obj other)
                  Py_LT r2) as L.
    destruct (PyObject_RichCompareBool (_obj self) (_obj other) Py_LT r2)
      as [lt r3].
    cbn [fst snd] in *. rewrite !PyObject_RichCompareBool_value.
    rewrite G, L, C, compare_Py_XINCREF. reflexivity.
  - intros bg bl G L. rewrite !PyObject_RichCompareBool_value, G, L.
    destruct bg, bl; cbn; lia.
  - intros e G L. rewrite !PyObject_RichCompareBool_value, G, L.
    reflexivity.
Qed.

Lemma cmp_is_greater_minus_less_witness :
  (compare demo 2%N 6%N Py_GT = Ok false /\
   compare demo 2%N 6%N Py_LT = Ok true /\
   fst (cmp (mkObject 2%N 2%N) (mkObject 6%N 6%N) demo) = Return (0 - 1) /\
   -1 <= 0 - 1 <= 1) /\
  (compare lopsided 2%N 6%N Py_GT = Ok true /\
   compare lopsided 2%N 6%N Py_LT = Raises PyExc_TypeError /\
   fst (cmp (mkObject 2%N 2%N) (mkObject 6%N 6%N) lopsided)
   = Return (1 - (-1)) /\
   1 - (-1) = 2).
Proof.
  split.
  - split; [reflexivity|split; [reflexivity|]].
    split.
    + exact (proj1 (cmp_is_greater_minus_less
                      (mkObject 2%N 2%N) (mkObject 6%N 6%N) demo)).
    + exact (proj2 (proj1 (proj2 (cmp_is_greater_minus_less
                             (mkObject 2%N 2%N) (mkObject 6%N 6%N) demo))
                      false true eq_refl eq_refl)).
  - split; [reflexivity|split; [reflexivity|]].
    split.
    + exact (proj1 (cmp_is_greater_minus_less
                      (mkObject 2%N 2%N) (mkObject 6%N 6%N) lopsided)).
    + exact (proj2 (proj2 (cmp_is_greater_minus_less
                             (mkObject 2%N 2%N) (mkObject 6%N 6%N) lopsided))
               PyExc_TypeError eq_refl eq_refl).
Defined.

(** In the example heap 7 < 9: the less-than result is 1 and the
    greater-than result is 0.  [cmp] returns 0 - 1 = -1; the less-than
    result less the greater-than result would be 1. *)
Lemma cmp_subtraction_counterexample :
  let seven := mkObject 2%N 2%N in
  let nine := mkObject 6%N 6%N in
  let lt := fst (PyObject_RichCompareBool (_obj seven) (_obj nine)
                   Py_LT demo) in
  let gt := fst (PyObject_RichCompareBool (_obj seven) (_obj nine)
                   Py_GT demo) in
  lt = 1 /\ gt = 0 /\
  fst (cmp seven nine demo) = Return (-1) /\
  fst (cmp seven nine demo) <> Return (lt - gt).
Proof. cbv. repeat split; discriminate. Qed.

(** *** Round trips through the constructors and the casts *)

Lemma cast_int_small (v : Z) : INT_MIN <= v <= INT_MAX -> cast_int v = v.
Proof.
  unfold INT_MIN, INT_MAX, cast_int. intros H.
  rewrite Z.mod_small; lia.
Qed.

Lemma is_null_ptr_succ (p : PyObject) : is_null_ptr (N.succ p) = false.
Proof. unfold is_null_ptr, NULL. apply N.eqb_neq, N.neq_succ_0. Qed.

Lemma upd_same {A : Type} (f : PyObject -> A) (p : PyObject) (a : A) :
  upd f p a p = a.
Proof. unfold upd. now rewrite N.eqb_refl. Qed.

Lemma bytes_eqb_eq (a b : list byte) : bytes_eqb a b = true -> a = b.
Proof.
  revert b. induction a as [|x a IH]; intros [|y b] H;
    try discriminate; [reflexivity|].
  cbn in H. apply andb_true_iff in H as [X Y].
  apply Byte.byte_dec_bl in X. subst. f_equal. now apply IH.
Qed.

Lemma pyval_eqb_eq (a b : pyval) : pyval_eqb a b = true -> a = b.
Proof.
  destruct a, b; cbn; intros H; try discriminate; try reflexivity.
  - apply Z.eqb_eq in H. now subst.
  - apply Z.eqb_eq in H. now subst.
  - apply andb_true_iff in H as [X Y].
    apply Z.eqb_eq in X, Y. now subst.
  - apply bytes_eqb_eq in H. now subst.
Qed.

Lemma shared_spec (r : runtime) (v : pyval) (p : PyObject) :
  shared r v = Some p -> is_null_ptr p = false /\ ob_val r p = v.
Proof.
  unfold shared. destruct (cached r v) as [q|]; [|discriminate].
  destruct (is_null_ptr q) eqn:N; cbn [negb andb]; [discriminate|].
  destruct (pyval_eqb (ob_val r q) v) eqn:E; [|discriminate].
  intros X. inversion X. subst. split; [assumption|].
  now apply pyval_eqb_eq.
Qed.

(** What [alloc] leaves behind, whether the object is new or shared. *)
Lemma alloc_spec (v : pyval) (r : runtime) :
  let p := fst (alloc v r) in
  let r1 := snd (alloc v r) in
  is_null_ptr p = false /\ ob_val r1 p = v /\
  err r1 = err r /\ items r1 = items r /\ rejects r1 = rejects r /\
  compare r1 = compare r /\ long_as_double r1 = long_as_double r /\
  (forall q, q <> p ->
     ob_refcnt r1 q = ob_refcnt r q /\ ob_val r1 q = ob_val r q) /\
  ((shared r v = None /\ log r1 = log r ++ [New p] /\
    ob_refcnt r1 p = 1) \/
   (shared r v = Some p /\ log r1 = log r ++ [Incref p] /\
    ob_refcnt r1 p = ob_refcnt r p + 1 /\ ob_val r1 = ob_val r)).
Proof.
  unfold alloc. destruct (shared r v) as [p|] eqn:S; cbn [fst snd].
  - apply shared_spec in S as [N V].
    unfold Py_INCREF, logged, with_refcnt. cbn.
    split; [assumption|]. split; [assumption|].
    do 5 (split; [reflexivity|]). split.
    + intros q Hq. unfold upd.
      destruct (N.eqb q p) eqn:E; [apply N.eqb_eq in E; contradiction|].
      now split.
    + right. rewrite upd_same. repeat split.
  - cbn. split; [apply is_null_ptr_succ|]. split; [apply upd_same|].
    do 5 (split; [reflexivity|]). split.
    + intros q Hq. unfold upd.
      destruct (N.eqb q (N.succ (brk r))) eqn:E;
        [apply N.eqb_eq in E; contradiction|]. now split.
    + left. rewrite upd_same. repeat split.
Qed.

Lemma c_string_no_nul (s : list byte) :
  ~ In x00 s -> c_string (s ++ [x00]) = s.
Proof.
  induction s as [|b s IH]; intros H; [reflexivity|]. cbn.
  destruct (Byte.eqb b x00) eqn:E.
  - apply Byte.byte_dec_bl in E. subst. exfalso. apply H. now left.
  - f_equal. apply IH. intros X. apply H. now right.
Qed.

Lemma c_string_spec (u : list byte) : ~ In x00 (c_string u).
Proof.
  induction u as [|b u IH]; cbn; [tauto|].
  destruct (Byte.eqb b x00) eqn:E; [cbn; tauto|].
  intros [X|X]; [|tauto]. subst. discriminate.
Qed.

Lemma operator_string_of_text (p : PyObject) (r : runtime) (bytes : list byte) :
  is_null_ptr p = false -> ob_val r p = PyUnicode bytes ->
  fst (operator_string (mkObject p p) r) = Return (c_string (bytes ++ [x00])).
Proof.
  intros N H.
  unfold operator_string, PyUnicode_Check, Py_TYPE, PyUnicode_AsUTF8.
  cbn [_obj]. rewrite N, H. reflexivity.
Qed.

(** C8 (as the code has it).  With no error pending, an [int] made into
    a handle and cast back is returned unchanged, and so is a [double]; a
    [float] widened to the [double] constructor and cast back is unchanged
    when narrowing undoes widening.  A [std::string] whose bytes before its
    first NUL are UTF-8 comes back as just those bytes: unchanged when it
    contains no NUL byte, cut at the first NUL otherwise. *)
Theorem native_round_trip (r : runtime) :
  (err r = None ->
   (forall v, INT_MIN <= v <= INT_MAX ->
      fst (operator_int (fst (object_int v r)) (snd (object_int v r)))
      = Return v) /\
   (forall d,
      fst (operator_double (fst (object_double d r))
             (snd (object_double d r))) = Return d) /\
   (forall (float_to_double : float -> double)
           (double_to_float : double -> float) (f : float),
      double_to_float (float_to_double f) = f ->
      fst (operator_float double_to_float
             (fst (object_double (float_to_double f) r))
             (snd (object_double (float_to_double f) r))) = Return f)) /\
  (forall s, utf8_valid (c_string (c_str s)) = true ->
     fst (operator_string (fst (object_string s r))
            (snd (object_string s r))) = Return (c_string (c_str s))) /\
  (forall s, utf8_valid s = true -> ~ In x00 s ->
     fst (operator_string (fst (object_string s r))
            (snd (object_string s r))) = Return s).
Proof.
  assert (S : forall s, utf8_valid (c_string (c_str s)) = true ->
     fst (operator_string (fst (object_string s r))
            (snd (object_string s r))) = Return (c_string (c_str s))).
  { intros s U. unfold object_string, PyUnicode_FromString. rewrite U.
    pose proof (alloc_spec (PyUnicode (c_string (c_str s))) r) as A.
    cbv zeta in A. destruct (alloc _ r) as [p r1]. cbn [fst snd] in *.
    destruct A as (N & V & _).
    rewrite (operator_string_of_text p r1 _ N V).
    f_equal. apply c_string_no_nul, c_string_spec. }
  split; [|split].
  - intros E. split; [|split].
    + intros v Hv. unfold object_int, PyLong_FromLong.
      pose proof (alloc_spec (PyLong (cast_int v)) r) as A.
      cbv zeta in A. destruct (alloc _ r) as [p r1]. cbn [fst snd] in *.
      destruct A as (N & V & E1 & _).
      unfold operator_int, PyLong_AsLong. cbn [_obj].
      rewrite N, V, cast_int_small by assumption.
      replace ((LONG_MIN <=? v) && (v <=? LONG_MAX)) with true.
      * unfold PyErr_Occurred. rewrite E1, E.
        cbn [fst]. now rewrite cast_int_small.
      * symmetry. unfold LONG_MIN, LONG_MAX, INT_MIN, INT_MAX in *.
        apply andb_true_iff. split; apply Z.leb_le; lia.
    + intros d. unfold object_double, PyFloat_FromDouble.
      pose proof (alloc_spec (PyFloat d) r) as A.
      cbv zeta in A. destruct (alloc _ r) as [p r1]. cbn [fst snd] in *.
      destruct A as (N & V & E1 & _).
      unfold operator_double, PyFloat_AsDouble. cbn [_obj].
      rewrite N, V. unfold PyErr_Occurred. rewrite E1, E. reflexivity.
    + intros w n f H. unfold object_double, PyFloat_FromDouble.
      pose proof (alloc_spec (PyFloat (w f)) r) as A.
      cbv zeta in A. destruct (alloc _ r) as [p r1]. cbn [fst snd] in *.
      destruct A as (N & V & E1 & _).
      unfold operator_float, PyFloat_AsDouble. cbn [_obj].
      rewrite N, V. unfold PyErr_Occurred. rewrite E1, E.
      cbn [fst]. now rewrite H.
  - exact S.
  - intros s U N. rewrite S; unfold c_str; rewrite c_string_no_nul; auto.
Qed.

Lemma native_round_trip_witness :
  err demo = None /\
  (INT_MIN <= 5 <= INT_MAX /\
   fst (operator_int (fst (object_int 5 demo)) (snd (object_int 5 demo)))
   = Return 5) /\
  ((fun d : double => d) ((fun f : float => f) 7) = 7 /\
   fst (operator_float (fun d => d)
          (fst (object_double ((fun f : float => f) 7) demo))
          (snd (object_double ((fun f : float => f) 7) demo))) = Return 7) /\
  (utf8_valid ["k"%byte] = true /\ ~ In x00 ["k"%byte] /\
   fst (operator_string (fst (object_string ["k"%byte] demo))
          (snd (object_string ["k"%byte] demo))) = Return ["k"%byte]) /\
  (utf8_valid (c_string (c_str ["a"; x00; "b"]%byte)) = true /\
   fst (operator_string (fst (object_string ["a"; x00; "b"]%byte demo))
          (snd (object_string ["a"; x00; "b"]%byte demo)))
   = Return (c_string (c_str ["a"; x00; "b"]%byte))).
Proof.
  assert (I : INT_MIN <= 5 <= INT_MAX) by (unfold INT_MIN, INT_MAX; lia).
  assert (K : ~ In x00 ["k"%byte])
    by (intros [X|[]]; discriminate).
  pose proof (native_round_trip demo) as (Hnum & Hcut & Hs).
  destruct (Hnum eq_refl) as (Hi & _ & Hf).
  split; [reflexivity|]. split; [|split; [|split]].
  - split; [exact I|]. exact (Hi 5 I).
  - split; [reflexivity|]. exact (Hf (fun f => f) (fun d => d) 7 eq_refl).
  - split; [reflexivity|]. split; [exact K|].
    exact (Hs ["k"%byte] eq_refl K).
  - split; [reflexivity|]. exact (Hcut ["a"; x00; "b"]%byte eq_refl).
Defined.

(** The three bytes [a], NUL, [b] are a [std::string]; [c_str()] hands the
    constructor a pointer at which the C string [a] starts, and the cast
    back yields the one byte [a]. *)
Lemma string_with_nul_counterexample :
  let s := ["a"; x00; "b"]%byte in
  let h := fst (object_string s demo) in
  let r1 := snd (object_string s demo) in
  is_null h = false /\
  fst (operator_string h r1) = Return ["a"%byte] /\
  fst (operator_string h r1) <> Return s.
Proof. cbv. repeat split; discriminate. Qed.

(** *** Moves, disown and the steal idiom *)

Lemma owning_true (h : object) :
  owning h = true -> is_null_ptr (_own h) = false.
Proof. unfold owning. now destruct (is_null_ptr (_own h)). Qed.

(** C9 (as the code has it).  The class has no move operations: moving
    from a handle runs the copy constructor or the copy assignment, which
    acquire one more reference to the referent (the assignment also
    releases what the destination owned) and leave the source owning.  A
    counted reference changes hands without a count change in two places:
    [disown()] returns the pointer and leaves the handle non-owning, and
    [object(lose_ref(p))] takes over the reference the caller holds on
    [p]. *)
Theorem move_copies_disown_and_steal_transfer
  (a d : object) (r : runtime) :
  (fst (disown a) = _obj a /\
   _obj (snd (disown a)) = _obj a /\
   owning (snd (disown a)) = false) /\
  (forall p,
     let r1 := snd (lose_ref p r) in
     let h := fst (object_PyObject (fst (lose_ref p r)) r1) in
     let r2 := snd (object_PyObject (fst (lose_ref p r)) r1) in
     _obj h = p /\ _own h = p /\
     forall q, ob_refcnt r2 q = ob_refcnt r q) /\
  (owning a = true -> invariant a = true ->
   let b := fst (fst (move_construct a r)) in
   let a' := snd (fst (move_construct a r)) in
   let r' := snd (move_construct a r) in
   a' = a /\ owning a' = true /\
   owning b = true /\ _obj b = _obj a /\
   forall q,
     ob_refcnt r' q = ob_refcnt r q + (if N.eqb q (_obj a) then 1 else 0)) /\
  (owning a = true -> invariant a = true ->
   let d' := fst (fst (move_assign d a r)) in
   let a' := snd (fst (move_assign d a r)) in
   let r' := snd (move_assign d a r) in
   a' = a /\ owning a' = true /\
   owning d' = true /\ _obj d' = _obj a /\
   forall q,
     ob_refcnt r' q =
     ob_refcnt r q + (if N.eqb q (_obj a) then 1 else 0)
     - (if owning d && N.eqb q (_own d) then 1 else 0)).
Proof.
  split; [|split; [|split]].
  - unfold disown, owning. cbn. auto.
  - intros p. cbv zeta. unfold lose_ref, object_PyObject, grab_ref.
    cbn [_own]. rewrite Py_XDECREF_NULL.
    destruct (is_null_ptr p) eqn:E; cbn [negb fst snd _obj _own].
    + repeat split. intros q. rewrite refcnt_Py_XINCREF, E. cbn. lia.
    + repeat split. intros q. rewrite refcnt_Py_XINCREF, E.
      cbn [negb andb ob_refcnt logged with_refcnt]. unfold upd.
      destruct (N.eqb_spec q p); subst; lia.
  - intros O I. destruct (owning_invariant a O I) as [Hn Ho].
    unfold move_construct. rewrite object_copy_eq. cbn [fst snd _obj].
    repeat split; auto.
    + unfold owning. cbn [_own]. now rewrite Hn.
    + intros q. rewrite refcnt_Py_XINCREF, Hn. reflexivity.
  - intros O I. destruct (owning_invariant a O I) as [Hn Ho].
    unfold move_assign. rewrite assign_eq. cbn [fst snd _obj].
    repeat split; auto.
    + unfold owning. cbn [_own]. now rewrite Hn.
    + intros q. rewrite refcnt_Py_XDECREF, refcnt_Py_XINCREF, Hn.
      reflexivity.
Qed.

Lemma move_copies_disown_and_steal_transfer_witness :
  let a := mkObject 2%N 2%N in
  let d := mkObject 6%N 6%N in
  owning a = true /\ invariant a = true /\
  snd (fst (move_construct a demo)) = a /\
  ob_refcnt (snd (move_construct a demo)) 2%N = 2 /\
  snd (fst (move_assign d a demo)) = a /\
  ob_refcnt (snd (move_assign d a demo)) 2%N = 2 /\
  ob_refcnt (snd (move_assign d a demo)) 6%N = 0.
Proof.
  cbv zeta.
  pose proof (move_copies_disown_and_steal_transfer
                (mkObject 2%N 2%N) (mkObject 6%N 6%N) demo)
    as (_ & _ & Hc & Ha).
  destruct (Hc eq_refl eq_refl) as (C1 & _ & _ & _ & C2).
  destruct (Ha eq_refl eq_refl) as (A1 & _ & _ & _ & A2).
  split; [reflexivity|]. split; [reflexivity|].
  split; [exact C1|]. split; [exact (C2 2%N)|].
  split; [exact A1|]. split; [exact (A2 2%N)|exact (A2 6%N)].
Defined.

(** [a] owns the reference to the integer [7] of the example heap (count
    1).  After [object b(std::move(a))] the count is 2 and [a] is still
    owning: no reference was transferred. *)
Lemma move_construct_counterexample :
  let a := mkObject 2%N 2%N in
  let b := fst (fst (move_construct a demo)) in
  let a' := snd (fst (move_construct a demo)) in
  let r' := snd (move_construct a demo) in
  owning a = true /\ invariant a = true /\
  ob_refcnt demo (_obj a) = 1 /\
  ob_refcnt r' (_obj a) = 2 /\
  ob_refcnt r' (_obj a) <> ob_refcnt demo (_obj a) /\
  owning a' = true /\ owning a' <> false.
Proof. cbv. repeat split; discriminate. Qed.

(** *** Handles with a null referent (object::is_null) *)

Lemma null_handle (h : object) :
  is_null h = true -> invariant h = true -> h = object_nullptr.
Proof.
  unfold is_null, invariant, object_nullptr, is_null_ptr.
  destruct h as [o w]. cbn [_obj _own]. intros N I.
  apply N.eqb_eq in N. subst o.
  apply orb_true_iff in I. destruct I as [I|I]; apply N.eqb_eq in I;
    now subst w.
Qed.

Lemma swallowed_fetch_gives_null_handle
  (self key : object) (r : runtime) :
  items r (_obj self) (_obj key) = Raises PyExc_KeyError ->
  exists kr,
    fst (operator_index self key r) = Return kr /\
    is_null (base kr) = true /\ invariant (base kr) = true.
Proof.
  intros H. unfold operator_index.
  rewrite object_copy_eq. cbn [operator_PyObject _obj].
  unfold PyObject_GetItem. rewrite items_Py_XINCREF, H.
  cbn -[Py_XINCREF Py_XDECREF PyErr_ExceptionMatches raise PyErr_Clear].
  rewrite !Py_XINCREF_NULL, !Py_XDECREF_NULL.
  rewrite PyErr_ExceptionMatches_raise. cbn [PyErr_GivenExceptionMatches
    PyExc_eqb orb fst]. eexists. split; [reflexivity|]. split; reflexivity.
Qed.

(** C10 (as the code has it).  For a handle with a null referent, such as
    the one made from [nullptr] or the keyed reference returned after a
    swallowed key-not-found fetch, the copy constructor, the destructor and
    self-assignment leave the runtime as it is.  Copy-assignment with such a handle on one side makes no count
    operation for that side: assigning it to a destination only releases
    what the destination owned, and assigning a source to it only acquires
    the referent of the source.  [is_null()] is true exactly when the
    pointer held is null, hence false for a handle on any object, the none
    object included. *)
Theorem null_handle_operations (h : object) (r : runtime) :
  (is_null h = true -> invariant h = true ->
   object_copy h r = (object_nullptr, r) /\
   destroy h r = r /\
   assign h h r = (h, r) /\
   (forall d, assign d h r = (object_nullptr, Py_XDECREF (_own d) r)) /\
   (forall s, assign h s r =
              (mkObject (_obj s) (_obj s), Py_XINCREF (_obj s) r))) /\
  (is_null h = true <-> _obj h = NULL) /\
  (is_null object_nullptr = true /\ invariant object_nullptr = true) /\
  (forall self key,
     items r (_obj self) (_obj key) = Raises PyExc_KeyError ->
     exists kr,
       fst (operator_index self key r) = Return kr /\
       is_null (base kr) = true /\ invariant (base kr) = true) /\
  (forall p r0, p <> NULL -> ob_val r0 p = PyNone ->
     is_null (fst (object_PyObject p r0)) = false) /\
  (forall p r0, p <> NULL -> is_null (fst (object_PyObject p r0)) = false).
Proof.
  assert (F : forall p r0, p <> NULL ->
                is_null (fst (object_PyObject p r0)) = false).
  { intros p r0 Hp. unfold object_PyObject, grab_ref, is_null, is_null_ptr.
    cbn [fst _obj]. now apply N.eqb_neq. }
  split; [|split; [|split; [|split; [|split]]]].
  - intros N I. rewrite (null_handle h N I). repeat split.
  - unfold is_null, is_null_ptr. apply N.eqb_eq.
  - split; reflexivity.
  - intros self key. apply swallowed_fetch_gives_null_handle.
  - intros p r0 Hp _. now apply F.
  - exact F.
Qed.

Lemma null_handle_operations_witness :
  is_null object_nullptr = true /\ invariant object_nullptr = true /\
  object_copy object_nullptr demo = (object_nullptr, demo) /\
  destroy object_nullptr demo = demo /\
  (4%N <> NULL /\ ob_val demo 4%N = PyNone /\
   is_null (fst (object_PyObject 4%N demo)) = false) /\
  (items demo 1%N 2%N = Raises PyExc_KeyError /\
   exists kr,
     fst (operator_index (mkObject 1%N 1%N) (mkObject 2%N 2%N) demo)
     = Return kr /\
     is_null (base kr) = true /\ invariant (base kr) = true).
Proof.
  assert (N4 : 4%N <> NULL) by discriminate.
  pose proof (null_handle_operations object_nullptr demo)
    as (Hn & _ & _ & Hk & Hnone & _).
  destruct (Hn eq_refl eq_refl) as (Hc & Hd & _).
  split; [reflexivity|]. split; [reflexivity|].
  split; [exact Hc|]. split; [exact Hd|]. split.
  - split; [exact N4|]. split; [reflexivity|].
    exact (Hnone 4%N demo N4 eq_refl).
  - split; [reflexivity|].
    exact (Hk (mkObject 1%N 1%N) (mkObject 2%N 2%N) eq_refl).
Defined.

(** [h] is constructed from [nullptr].  [h = s], with [s] owning the
    integer [7] of the example heap, raises the count of [7] from 1 to 2;
    [d = h], with [d] owning the integer [9], lowers the count of [9] from
    1 to 0. *)
Lemma null_handle_assignment_counterexample :
  let h := object_nullptr in
  let s := mkObject 2%N 2%N in
  let d := mkObject 6%N 6%N in
  is_null h = true /\
  ob_refcnt demo 2%N = 1 /\
  ob_refcnt (snd (assign h s demo)) 2%N = 2 /\
  ob_refcnt (snd (assign h s demo)) 2%N <> ob_refcnt demo 2%N /\
  ob_refcnt demo 6%N = 1 /\
  ob_refcnt (snd (assign d h demo)) 6%N = 0 /\
  ob_refcnt (snd (assign d h demo)) 6%N <> ob_refcnt demo 6%N.
Proof. cbv. repeat split; discriminate. Qed.

(** ** Further properties of the handle *)

(** *** Count lemmas in terms of [hit] *)

Lemma hit_null (q : PyObject) : hit q NULL = 0.
Proof. reflexivity. Qed.

Lemma hit_same (p : PyObject) : is_null_ptr p = false -> hit p p = 1.
Proof. intros H. unfold hit. now rewrite H, N.eqb_refl. Qed.

Lemma hit_other (q p : PyObject) : q <> p -> hit q p = 0.
Proof.
  intros H. unfold hit. apply N.eqb_neq in H. rewrite H.
  now rewrite andb_false_r.
Qed.

Lemma refcnt_incref (p : PyObject) (r : runtime) (q : PyObject) :
  ob_refcnt (Py_XINCREF p r) q = ob_refcnt r q + hit q p.
Proof. apply refcnt_Py_XINCREF. Qed.

Lemma refcnt_decref (p : PyObject) (r : runtime) (q : PyObject) :
  ob_refcnt (Py_XDECREF p r) q = ob_refcnt r q - hit q p.
Proof. apply refcnt_Py_XDECREF. Qed.

Lemma refcnt_destroy (h : object) (r : runtime) (q : PyObject) :
  ob_refcnt (destroy h r) q = ob_refcnt r q - hit q (_own h).
Proof. apply refcnt_Py_XDECREF. Qed.

Lemma refcnt_lose_ref (p : PyObject) (r : runtime) (q : PyObject) :
  ob_refcnt (snd (lose_ref p r)) q = ob_refcnt r q - hit q p.
Proof.
  unfold lose_ref, hit, upd. destruct (is_null_ptr p); cbn.
  - lia.
  - destruct (N.eqb_spec q p); subst; lia.
Qed.

Lemma fst_lose_ref (p : PyObject) (r : runtime) : fst (lose_ref p r) = p.
Proof. unfold lose_ref. now destruct (is_null_ptr p). Qed.

Lemma object_PyObject_eq (p : PyObject) (r : runtime) :
  object_PyObject p r = (mkObject p p, Py_XINCREF p r).
Proof. reflexivity. Qed.

(** *** Retaining, disowning, assigning *)

(** X1.  A handle made from a raw pointer acquires its own reference, and
    destroying it gives exactly that reference back: after [object h(p)]
    and the destruction of [h] every count is as before.  The handle is
    owning exactly when [p] is not null. *)
Theorem retain_then_destroy_is_balanced (p : PyObject) (r : runtime) :
  let h := fst (object_PyObject p r) in
  let r1 := snd (object_PyObject p r) in
  _obj h = p /\
  owning h = negb (is_null_ptr p) /\
  invariant h = true /\
  (forall q, ob_refcnt r1 q = ob_refcnt r q + hit q p) /\
  (forall q, ob_refcnt (destroy h r1) q = ob_refcnt r q).
Proof.
  cbv zeta. rewrite object_PyObject_eq. cbn [fst snd _obj].
  split; [reflexivity|]. split; [reflexivity|]. split.
  - unfold invariant. cbn [_obj _own]. rewrite N.eqb_refl. apply orb_true_r.
  - split; intros q.
    + apply refcnt_incref.
    + rewrite refcnt_destroy, refcnt_incref. cbn [_own]. lia.
Qed.

(** X2.  [disown()] hands the reference out: it returns the pointer, and
    the destructor of the disowned handle then releases nothing, so the
    reference the handle had acquired is still counted; one [Py_XDECREF] on
    the returned pointer gives it back. *)
Theorem disown_hands_the_reference_out (p : PyObject) (r : runtime) :
  let h := fst (object_PyObject p r) in
  let r1 := snd (object_PyObject p r) in
  let raw := fst (disown h) in
  let h' := snd (disown h) in
  raw = p /\
  destroy h' r1 = r1 /\
  (forall q, ob_refcnt (destroy h' r1) q = ob_refcnt r q + hit q p) /\
  (forall q, ob_refcnt (Py_XDECREF raw (destroy h' r1)) q = ob_refcnt r q).
Proof.
  cbv zeta. rewrite object_PyObject_eq. cbn [fst snd disown _obj].
  unfold destroy. cbn [_own]. rewrite Py_XDECREF_NULL.
  repeat split; intros q.
  - apply refcnt_incref.
  - rewrite refcnt_decref, refcnt_incref. lia.
Qed.

(** X3.  Assignment neither leaks nor releases twice: after [a = b], the
    destruction of [a] and [b] leaves every count where the destruction of
    [a] and [b] without the assignment would have left it. *)
Theorem assignment_then_destruction_is_balanced (a b : object) (r : runtime) :
  let a' := fst (assign a b r) in
  let r1 := snd (assign a b r) in
  forall q,
    ob_refcnt (destroy b (destroy a' r1)) q =
    ob_refcnt (destroy b (destroy a r)) q.
Proof.
  cbv zeta. intros q. rewrite assign_eq. cbn [fst snd].
  rewrite !refcnt_destroy, refcnt_decref, refcnt_incref. cbn [_own]. lia.
Qed.

(** *** Handles made from native values *)

Lemma released_Py_XDECREF (p : PyObject) (r : runtime) :
  released (since r (Py_XDECREF p r)) = if is_null_ptr p then [] else [p].
Proof.
  rewrite (since_app _ _ _ (log_Py_XDECREF p r)).
  destruct (is_null_ptr p); [reflexivity|].
  destruct (ob_refcnt r p - 1 =? 0); reflexivity.
Qed.

Lemma alloc_reference_owner (v : pyval) (r : runtime) :
  reference_owner r v
    (mkObject (fst (alloc v r)) (fst (alloc v r)), snd (alloc v r)).
Proof.
  pose proof (alloc_spec v r) as A. cbv zeta in A.
  unfold reference_owner. cbn [fst snd _obj _own].
  destruct (alloc v r) as [p r1]. cbn [fst snd] in *.
  destruct A as (N & V & _ & _ & _ & _ & _ & O & K).
  split; [unfold owning; cbn [_own]; now rewrite N|].
  split; [unfold invariant; cbn [_obj _own];
          rewrite N.eqb_refl; apply orb_true_r|].
  split; [reflexivity|]. split; [assumption|]. split; [assumption|].
  unfold destroy. cbn [_own].
  destruct K as [(S & L & C)|(S & L & C & W)]; rewrite S.
  - split; [now apply since_app|]. split; [assumption|]. split.
    + apply since_app. rewrite log_Py_XDECREF, N, C. reflexivity.
    + rewrite refcnt_decref, C, hit_same; auto.
  - split; [reflexivity|]. split; [now apply since_app|].
    split; [now rewrite <- W|]. split; [assumption|]. split.
    + now rewrite released_Py_XDECREF, N.
    + intros q. rewrite refcnt_decref.
      destruct (N.eq_dec q p) as [->|D].
      * rewrite C, hit_same; auto. lia.
      * rewrite (proj1 (O q D)), hit_other; auto. lia.
Qed.

(** X4.  Every constructor from a native value makes the handle the owner
    of one new reference to an object that carries the value, and touches
    no other object.  Where the runtime shares no object for the value,
    the object is new, its count is 1, and the destruction of the handle
    deallocates it.  Where the runtime shares an object for the value, the
    handle wraps that object with its count raised by one, and the
    destruction of the handle puts every count back.  For the two text
    constructors this holds when the bytes before the first NUL are
    UTF-8. *)
Theorem native_constructors_own_one_reference (r : runtime) :
  (forall b : bool,
     reference_owner r (PyLong (if b then 1 else 0)) (object_bool b r)) /\
  (forall v, reference_owner r (PyLong (cast_int v)) (object_int v r)) /\
  (forall v, reference_owner r (PyLong v) (object_unsigned_int v r)) /\
  (forall v, reference_owner r (PyLong v) (object_long v r)) /\
  (forall v, reference_owner r (PyLong v) (object_unsigned_long v r)) /\
  (forall d, reference_owner r (PyFloat d) (object_double d r)) /\
  (forall re im,
     reference_owner r (PyComplex re im) (object_complex (re, im) r)) /\
  (forall s, utf8_valid (c_string s) = true ->
     reference_owner r (PyUnicode (c_string s)) (object_const_char s r)) /\
  (forall s, utf8_valid (c_string (c_str s)) = true ->
     reference_owner r (PyUnicode (c_string (c_str s)))
       (object_string s r)).
Proof.
  assert (A : forall v, reference_owner r v
     (let '(p, r1) := alloc v r in (mkObject p p, r1))).
  { intros v. pose proof (alloc_reference_owner v r) as X.
    now destruct (alloc v r). }
  repeat match goal with |- _ /\ _ => split end; intros;
    try apply A.
  - unfold object_const_char, PyUnicode_FromString. rewrite H. apply A.
  - unfold object_string, PyUnicode_FromString. rewrite H. apply A.
Qed.

Lemma native_constructors_own_one_reference_witness :
  (utf8_valid (c_string ["k"; x00]%byte) = true /\
   reference_owner demo (PyUnicode (c_string ["k"; x00]%byte))
     (object_const_char ["k"; x00]%byte demo)) /\
  (utf8_valid (c_string (c_str ["k"%byte])) = true /\
   reference_owner sharing (PyUnicode (c_string (c_str ["k"%byte])))
     (object_string ["k"%byte] sharing)).
Proof.
  split; (split; [reflexivity|]).
  - exact (proj1 (proj2 (proj2 (proj2 (proj2 (proj2 (proj2 (proj2
             (native_constructors_own_one_reference demo))))))))
             ["k"; x00]%byte eq_refl).
  - exact (proj2 (proj2 (proj2 (proj2 (proj2 (proj2 (proj2 (proj2
             (native_constructors_own_one_reference sharing))))))))
             ["k"%byte] eq_refl).
Defined.

(** X5.  The text constructor does not test what
    [PyUnicode_FromString] returns: for a string whose bytes are not UTF-8
    it returns normally with a handle on no value at all, which owns
    nothing, and leaves the decoding error set in the runtime. *)
Theorem string_constructor_of_invalid_utf8 (s : list byte) (r : runtime) :
  utf8_valid (c_string (c_str s)) = false ->
  let h := fst (object_string s r) in
  let r1 := snd (object_string s r) in
  is_null h = true /\ owning h = false /\
  err r1 = Some (PyExc_UnicodeDecodeError, EmptyString) /\
  (forall q, ob_refcnt r1 q = ob_refcnt r q) /\
  destroy h r1 = r1.
Proof.
  intros H. cbv zeta. unfold object_string, PyUnicode_FromString.
  rewrite H. cbn. repeat split.
Qed.

Lemma string_constructor_of_invalid_utf8_witness :
  utf8_valid (c_string (c_str [xff])) = false /\
  is_null (fst (object_string [xff] demo)) = true /\
  err (snd (object_string [xff] demo)) =
    Some (PyExc_UnicodeDecodeError, EmptyString).
Proof.
  split; [reflexivity|].
  destruct (string_constructor_of_invalid_utf8 [xff] demo eq_refl)
    as (H1 & _ & H2 & _).
  split; [exact H1|exact H2].
Defined.

(** *** Casts: narrowing to [int], complex *)

(** X6.  The cast to [int] narrows without a range test: with no error
    pending, a handle on an integer that fits a C long casts to that
    integer reduced modulo 2^32 into the range of [int], so 2^32 + 5 casts
    to 5; an integer that does not fit a C long is a typed conversion
    error. *)
Theorem int_cast_wraps_modulo_2_32 (r : runtime) (v : Z) :
  err r = None ->
  (LONG_MIN <= v <= LONG_MAX ->
   fst (operator_int (fst (object_long v r)) (snd (object_long v r)))
   = Return (cast_int v) /\
   INT_MIN <= cast_int v <= INT_MAX /\
   (cast_int v - v) mod 2 ^ 32 = 0) /\
  (LONG_MAX < v ->
   typed_conversion_error "cannot convert value to integer"
     (snd (object_unsigned_long v r))
     (operator_int (fst (object_unsigned_long v r))
        (snd (object_unsigned_long v r)))).
Proof.
  intros E. split.
  - intros Hv. split; [|split].
    + unfold object_long, PyLong_FromLong.
      pose proof (alloc_spec (PyLong v) r) as A. cbv zeta in A.
      destruct (alloc _ r) as [p r1]. cbn [fst snd] in *.
      destruct A as (N & V & E1 & _).
      unfold operator_int, PyLong_AsLong. cbn [_obj]. rewrite N, V.
      replace ((LONG_MIN <=? v) && (v <=? LONG_MAX)) with true
        by (symmetry; apply andb_true_iff; split; apply Z.leb_le; lia).
      unfold PyErr_Occurred. now rewrite E1, E.
    + unfold cast_int, INT_MIN, INT_MAX.
      pose proof (Z.mod_pos_bound (v + 2 ^ 31) (2 ^ 32) ltac:(lia)). lia.
    + unfold cast_int.
      replace ((v + 2 ^ 31) mod 2 ^ 32 - 2 ^ 31 - v)
        with (- ((v + 2 ^ 31) / 2 ^ 32) * 2 ^ 32)
        by (pose proof (Z.div_mod (v + 2 ^ 31) (2 ^ 32) ltac:(lia)); lia).
      apply Z.mod_mul. lia.
  - intros Hv. unfold object_unsigned_long, PyLong_FromUnsignedLong.
    pose proof (alloc_spec (PyLong v) r) as A. cbv zeta in A.
    destruct (alloc _ r) as [p r1]. cbn [fst snd] in *.
    destruct A as (N & V & _).
    unfold operator_int, PyLong_AsLong. cbn [_obj]. rewrite N, V.
    replace ((LONG_MIN <=? v) && (v <=? LONG_MAX)) with false
      by (symmetry; apply andb_false_iff; right; apply Z.leb_gt; lia).
    cbn [snd PyErr_Occurred raise PyErr_SetString logged with_err err].
    apply clear_then_fail. apply extends_raise.
Qed.

Lemma int_cast_wraps_modulo_2_32_witness :
  err demo = None /\
  (LONG_MIN <= 2 ^ 32 + 5 <= LONG_MAX /\
   fst (operator_int (fst (object_long (2 ^ 32 + 5) demo))
          (snd (object_long (2 ^ 32 + 5) demo))) = Return 5) /\
  (LONG_MAX < 2 ^ 63 /\
   typed_conversion_error "cannot convert value to integer"
     (snd (object_unsigned_long (2 ^ 63) demo))
     (operator_int (fst (object_unsigned_long (2 ^ 63) demo))
        (snd (object_unsigned_long (2 ^ 63) demo)))).
Proof.
  assert (A : LONG_MIN <= 2 ^ 32 + 5 <= LONG_MAX)
    by (unfold LONG_MIN, LONG_MAX; lia).
  assert (B : LONG_MAX < 2 ^ 63) by (unfold LONG_MAX; lia).
  split; [reflexivity|]. split.
  - split; [exact A|].
    exact (proj1 (proj1 (int_cast_wraps_modulo_2_32 demo (2 ^ 32 + 5)
                           eq_refl) A)).
  - split; [exact B|].
    exact (proj2 (int_cast_wraps_modulo_2_32 demo (2 ^ 63) eq_refl) B).
Defined.

(** X7.  With no error pending, a complex pair made into a handle and
    cast back is the same pair, and a handle on a float casts to the
    complex number with that real part and the imaginary part [0.0]. *)
Theorem complex_cast_round_trip (r : runtime) :
  err r = None ->
  (forall re im,
     fst (operator_complex (fst (object_complex (re, im) r))
            (snd (object_complex (re, im) r))) = Return (re, im)) /\
  (forall d,
     fst (operator_complex (fst (object_double d r))
            (snd (object_double d r))) = Return (d, double_zero)).
Proof.
  intros E. split; intros.
  - unfold object_complex, PyComplex_FromDoubles. cbn [fst snd].
    pose proof (alloc_spec (PyComplex re im) r) as A. cbv zeta in A.
    destruct (alloc _ r) as [p r1]. cbn [fst snd] in *.
    destruct A as (N & V & E1 & _).
    unfold operator_complex, PyComplex_RealAsDouble, PyComplex_ImagAsDouble,
      Py_TYPE.
    cbn [_obj]. repeat (rewrite ?N, ?V; cbv beta iota).
    unfold PyErr_Occurred. now rewrite E1, E.
  - unfold object_double, PyFloat_FromDouble.
    pose proof (alloc_spec (PyFloat d) r) as A. cbv zeta in A.
    destruct (alloc _ r) as [p r1]. cbn [fst snd] in *.
    destruct A as (N & V & E1 & _).
    unfold operator_complex, PyComplex_RealAsDouble, PyComplex_ImagAsDouble,
      Py_TYPE, PyFloat_AsDouble.
    cbn [_obj]. repeat (rewrite ?N, ?V; cbv beta iota).
    unfold PyErr_Occurred. now rewrite E1, E.
Qed.

Lemma complex_cast_round_trip_witness :
  err demo = None /\
  fst (operator_complex (fst (object_complex (3, 4) demo))
         (snd (object_complex (3, 4) demo))) = Return (3, 4).
Proof.
  split; [reflexivity|].
  exact (proj1 (complex_cast_round_trip demo eq_refl) 3 4).
Defined.

(** *** Indexed access: what the keyed reference owns *)

Lemma err_lose_ref (p : PyObject) (r : runtime) :
  err (snd (lose_ref p r)) = err r.
Proof. unfold lose_ref. now destruct (is_null_ptr p). Qed.

Lemma err_destroy (h : object) (r : runtime) : err (destroy h r) = err r.
Proof. apply err_Py_XDECREF. Qed.

(** X8.  When the fetch of [operator[]] succeeds, the keyed reference
    returned wraps the item fetched and owns the one reference the fetch
    produced, and its key is an owning copy of the key: the count of the
    item and the count of the key are each one higher than before, no other
    count has changed (the temporaries of the operator are all released),
    and the error indicator is as before. *)
Theorem index_success_owns_the_item
  (self key : object) (r : runtime) (p : PyObject) :
  items r (_obj self) (_obj key) = Ok p ->
  is_null_ptr p = false ->
  let out := operator_index self key r in
  fst out = Return (mkKeyedRef (mkObject p p) self
                      (mkObject (_obj key) (_obj key))) /\
  (forall q,
     ob_refcnt (snd out) q = ob_refcnt r q + hit q p + hit q (_obj key)) /\
  err (snd out) = err r.
Proof.
  intros H Hp. cbv zeta. unfold operator_index.
  rewrite object_copy_eq. cbn [operator_PyObject _obj].
  unfold PyObject_GetItem. rewrite items_Py_XINCREF, H.
  rewrite object_PyObject_eq. cbn [_obj].
  unfold operator_PyObject. cbn [_obj].
  match goal with
  | |- context [lose_ref p ?x] =>
      pose proof (refcnt_lose_ref p x) as RL;
      pose proof (err_lose_ref p x) as EL;
      destruct (lose_ref p x) as [p' r4] eqn:L
  end.
  cbn [snd] in RL, EL.
  rewrite Hp. rewrite !object_copy_eq. unfold keyed_ref_new.
  rewrite !object_copy_eq. cbn [fst snd _obj].
  split; [reflexivity|]. split.
  - intros q. rewrite !refcnt_destroy, !refcnt_incref. cbn [_own].
    rewrite RL, refcnt_incref. cbn [ob_refcnt with_refcnt logged].
    unfold upd. rewrite !refcnt_incref.
    destruct (N.eqb_spec q p) as [->|Hq].
    + rewrite (hit_same p Hp). lia.
    + rewrite (hit_other q p Hq). lia.
  - rewrite !err_destroy, !err_Py_XINCREF, EL, err_Py_XINCREF.
    cbn [err with_refcnt logged]. apply err_Py_XINCREF.
Qed.

Lemma index_success_owns_the_item_witness :
  items demo 1%N 3%N = Ok 2%N /\
  is_null_ptr 2%N = false /\
  fst (operator_index (mkObject 1%N 1%N) (mkObject 3%N 3%N) demo) =
    Return (mkKeyedRef (mkObject 2%N 2%N) (mkObject 1%N 1%N)
              (mkObject 3%N 3%N)) /\
  ob_refcnt (snd (operator_index (mkObject 1%N 1%N) (mkObject 3%N 3%N)
                    demo)) 2%N = ob_refcnt demo 2%N + hit 2%N 2%N
                                 + hit 2%N 3%N.
Proof.
  split; [reflexivity|]. split; [reflexivity|].
  destruct (index_success_owns_the_item (mkObject 1%N 1%N)
              (mkObject 3%N 3%N) demo 2%N eq_refl eq_refl) as (A & B & _).
  split; [exact A|exact (B 2%N)].
Defined.

(** X9.  A failing fetch leaks no reference: when [operator[]] leaves by
    [throw] every count is as before the call, and when it swallows the
    failure the only count that has changed is that of the key, one higher
    for the copy the keyed reference keeps. *)
Theorem index_failure_leaks_nothing
  (self key : object) (r : runtime) (e : PyExc) :
  items r (_obj self) (_obj key) = Raises e ->
  let out := operator_index self key r in
  forall q,
    ob_refcnt (snd out) q =
    ob_refcnt r q
    + match fst out with
      | Throw => 0
      | _ => hit q (_obj key)
      end.
Proof.
  intros H. cbv zeta. intros q. unfold operator_index.
  rewrite object_copy_eq. cbn [operator_PyObject _obj].
  unfold PyObject_GetItem. rewrite items_Py_XINCREF, H.
  cbn -[Py_XINCREF Py_XDECREF PyErr_GivenExceptionMatches
       PyErr_ExceptionMatches raise PyErr_Clear].
  rewrite !Py_XINCREF_NULL, !Py_XDECREF_NULL.
  rewrite !PyErr_ExceptionMatches_raise.
  destruct (PyErr_GivenExceptionMatches e PyExc_KeyError);
    [|destruct (PyErr_GivenExceptionMatches e PyExc_IndexError)];
    cbn [fst snd]; unfold destroy; cbn [_own];
    rewrite ?Py_XDECREF_NULL, ?Py_XINCREF_NULL;
    rewrite ?refcnt_decref, ?refcnt_incref;
    cbn [ob_refcnt PyErr_Clear raise PyErr_SetString logged with_err];
    rewrite ?refcnt_incref; lia.
Qed.

Lemma index_failure_leaks_nothing_witness :
  items demo 5%N 2%N = Raises PyExc_IndexError /\
  ob_refcnt (snd (operator_index (mkObject 5%N 5%N) (mkObject 2%N 2%N)
                    demo)) 2%N = ob_refcnt demo 2%N + 0.
Proof.
  split; [reflexivity|].
  exact (index_failure_leaks_nothing (mkObject 5%N 5%N) (mkObject 2%N 2%N)
           demo PyExc_IndexError eq_refl 2%N).
Defined.

(** *** Assignment through a keyed reference, continued *)

Lemma items_Py_XDECREF (p : PyObject) (r : runtime) :
  items (Py_XDECREF p r) = items r.
Proof.
  unfold Py_XDECREF, Py_DECREF. destruct (is_null_ptr p); [reflexivity|].
  now destruct (_ =? 0).
Qed.

Lemma refcnt_assign (h other : object) (r : runtime) (q : PyObject) :
  ob_refcnt (snd (assign h other r)) q =
  ob_refcnt r q + hit q (_obj other) - hit q (_own h).
Proof.
  rewrite assign_eq. cbn [snd]. now rewrite refcnt_decref, refcnt_incref.
Qed.

Lemma items_assign (h other : object) (r : runtime) :
  items (snd (assign h other r)) = items r.
Proof.
  rewrite assign_eq. cbn [snd].
  now rewrite items_Py_XDECREF, items_Py_XINCREF.
Qed.

Lemma rejects_assign (h other : object) (r : runtime) :
  rejects (snd (assign h other r)) = rejects r.
Proof.
  rewrite assign_eq. cbn [snd].
  now rewrite rejects_Py_XDECREF, rejects_Py_XINCREF.
Qed.

Lemma refcnt_PyObject_SetItem (o k v : PyObject) (r : runtime) (q : PyObject) :
  ob_refcnt (snd (PyObject_SetItem o k v r)) q =
  ob_refcnt r q +
  match rejects r o k v with
  | Some _ => 0
  | None =>
      (if N.eqb q v then 1 else 0)
      - match items r o k with
        | Ok old => if N.eqb q old then 1 else 0
        | Raises _ => if N.eqb q k then -1 else 0
        end
  end.
Proof.
  unfold PyObject_SetItem. destruct (rejects r o k v); cbn; [lia|].
  destruct (items r o k) as [old|e]; cbn; unfold upd;
    repeat match goal with
           | |- context [N.eqb ?a ?b] => destruct (N.eqb_spec a b); subst
           end; try lia; congruence.
Qed.

Lemma upd2_same {A : Type} (f : PyObject -> PyObject -> A)
  (o k : PyObject) (a : A) : upd2 f o k a o k = a.
Proof. unfold upd2. now rewrite !N.eqb_refl. Qed.

Lemma keyed_ref_assign_eq (kr : keyed_ref) (other : object) (r : runtime) :
  keyed_ref_assign kr other r =
  (fst (set_item (_parent kr) (_key kr) other
          (snd (assign (base kr) other r))),
   mkKeyedRef (mkObject (_obj other) (_obj other)) (_parent kr) (_key kr),
   snd (set_item (_parent kr) (_key kr) other
          (snd (assign (base kr) other r)))).
Proof.
  unfold keyed_ref_assign.
  change (grab_ref (base kr) (operator_PyObject other) r)
    with (assign (base kr) other r).
  rewrite assign_eq. cbn [fst snd _parent _key].
  now destruct (set_item _ _ _ _).
Qed.

Lemma set_item_eq (self key val : object) (r : runtime) :
  set_item self key val r =
  (match rejects r (_obj self) (_obj key) (_obj val) with
   | Some _ => Throw
   | None => Return tt
   end,
   snd (PyObject_SetItem (_obj self) (_obj key) (_obj val) r)).
Proof.
  unfold set_item, PyObject_SetItem, operator_PyObject.
  destruct (rejects r (_obj self) (_obj key) (_obj val)); reflexivity.
Qed.

Lemma operator_index_fetched
  (self key : object) (r : runtime) (p : PyObject) :
  items r (_obj self) (_obj key) = Ok p ->
  is_null_ptr p = false ->
  fst (operator_index self key r) =
  Return (mkKeyedRef (mkObject p p) self (mkObject (_obj key) (_obj key))).
Proof.
  intros H Hp. unfold operator_index.
  rewrite object_copy_eq. cbn [operator_PyObject _obj].
  unfold PyObject_GetItem. rewrite items_Py_XINCREF, H.
  rewrite object_PyObject_eq. unfold operator_PyObject. cbn [_obj].
  match goal with
  | |- context [lose_ref p ?x] => destruct (lose_ref p x) as [p' r4]
  end.
  rewrite Hp. rewrite !object_copy_eq. unfold keyed_ref_new.
  rewrite !object_copy_eq. reflexivity.
Qed.

(** X10.  [container[key] = value] followed by [container[key]]: when the
    write-back of an assignment through a keyed reference is accepted, the
    assignment returns, and indexing the parent with the stored key then
    yields a keyed reference whose referent is the value assigned. *)
Theorem keyed_assignment_then_index_reads_the_value
  (kr : keyed_ref) (value : object) (r : runtime) :
  rejects r (_obj (_parent kr)) (_obj (_key kr)) (_obj value) = None ->
  is_null_ptr (_obj value) = false ->
  let out := keyed_ref_assign kr value r in
  fst (fst out) = Return tt /\
  exists kr',
    fst (operator_index (_parent kr) (_key kr) (snd out)) = Return kr' /\
    _obj (base kr') = _obj value /\
    owning (base kr') = true.
Proof.
  intros Rj Hv. cbv zeta. rewrite keyed_ref_assign_eq, set_item_eq.
  cbn [fst snd]. rewrite rejects_assign, Rj. split; [reflexivity|].
  eexists. split.
  - apply operator_index_fetched; [|exact Hv].
    unfold PyObject_SetItem. rewrite rejects_assign, Rj.
    cbn [snd items with_items]. apply upd2_same.
  - cbn [base _obj]. split; [reflexivity|].
    unfold owning. cbn [_own]. now rewrite Hv.
Qed.

Lemma keyed_assignment_then_index_reads_the_value_witness :
  let kr := mkKeyedRef object_nullptr (mkObject 1%N 1%N) (mkObject 6%N 6%N) in
  let nine := mkObject 6%N 6%N in
  rejects demo 1%N 6%N 6%N = None /\
  is_null_ptr 6%N = false /\
  fst (fst (keyed_ref_assign kr nine demo)) = Return tt /\
  exists kr',
    fst (operator_index (_parent kr) (_key kr)
           (snd (keyed_ref_assign kr nine demo))) = Return kr' /\
    _obj (base kr') = 6%N /\ owning (base kr') = true.
Proof.
  cbv zeta. split; [reflexivity|]. split; [reflexivity|].
  exact (keyed_assignment_then_index_reads_the_value
           (mkKeyedRef object_nullptr (mkObject 1%N 1%N) (mkObject 6%N 6%N))
           (mkObject 6%N 6%N) demo eq_refl eq_refl).
Defined.

(** X11.  Assigning one keyed reference to another is the assignment of
    the handle it wraps: the outcome, the keyed reference left behind and
    every count are those of [operator=(const object&)] on its base, so
    the temporary copy the operator makes is released on both ways out. *)
Theorem keyed_from_keyed_is_assignment_of_its_base
  (self other : keyed_ref) (r : runtime) :
  let out := keyed_ref_assign_keyed self other r in
  let ref := keyed_ref_assign self (base other) r in
  fst out = fst ref /\
  forall q, ob_refcnt (snd out) q = ob_refcnt (snd ref) q.
Proof.
  cbv zeta. unfold keyed_ref_assign_keyed. rewrite object_copy_eq.
  rewrite !keyed_ref_assign_eq, !set_item_eq. cbn [fst snd _obj].
  rewrite !rejects_assign, rejects_Py_XINCREF. split; [reflexivity|].
  intros q. rewrite refcnt_destroy. cbn [_own].
  rewrite !refcnt_PyObject_SetItem, !rejects_assign, !items_assign,
    rejects_Py_XINCREF, items_Py_XINCREF, !refcnt_assign, refcnt_incref.
  cbn [_obj]. lia.
Qed.

(** *** Three-way comparison, continued *)

Lemma refcnt_PyObject_RichCompareBool
  (o1 o2 : PyObject) (op : cmp_op) (r : runtime) (q : PyObject) :
  ob_refcnt (snd (PyObject_RichCompareBool o1 o2 op r)) q = ob_refcnt r q.
Proof.
  unfold PyObject_RichCompareBool.
  now destruct (compare r o1 o2 op) as [[|]|].
Qed.

Lemma cmp_value (self other : object) (r : runtime) :
  fst (cmp self other r) =
  Return (as_int (compare r (_obj self) (_obj other) Py_GT)
          - as_int (compare r (_obj self) (_obj other) Py_LT)).
Proof.
  unfold cmp. rewrite object_copy_eq. unfold operator_PyObject.
  cbn [_obj].
  pose proof (PyObject_RichCompareBool_value (_obj self) (_obj other)
                Py_GT (Py_XINCREF (_obj other) r)) as G.
  pose proof (compare_PyObject_RichCompareBool (_obj self) (_obj other)
                Py_GT (Py_XINCREF (_obj other) r)) as C.
  destruct (PyObject_RichCompareBool (_obj self) (_obj other) Py_GT
              (Py_XINCREF (_obj other) r)) as [gt r2].
  pose proof (PyObject_RichCompareBool_value (_obj self) (_obj other)
                Py_LT r2) as L.
  destruct (PyObject_RichCompareBool (_obj self) (_obj other) Py_LT r2)
    as [lt r3].
  cbn [fst snd] in *. now rewrite G, L, C, compare_Py_XINCREF.
Qed.

(** X12.  [cmp] leaves every count as it found it (the handle it makes
    of its argument is released), and it is antisymmetric when the runtime
    orders the two values consistently, that is when [a > b] answers as
    [b < a] does and [a < b] as [b > a]: then [cmp(a, b)] is the negation
    of [cmp(b, a)]. *)
Theorem cmp_is_antisymmetric_and_keeps_counts (a b : object) (r : runtime) :
  (forall q, ob_refcnt (snd (cmp a b r)) q = ob_refcnt r q) /\
  (compare r (_obj a) (_obj b) Py_GT = compare r (_obj b) (_obj a) Py_LT ->
   compare r (_obj a) (_obj b) Py_LT = compare r (_obj b) (_obj a) Py_GT ->
   exists x y,
     fst (cmp a b r) = Return x /\ fst (cmp b a r) = Return y /\ x = - y).
Proof.
  split.
  - intros q. unfold cmp. rewrite object_copy_eq. unfold operator_PyObject.
    cbn [_obj].
    pose proof (refcnt_PyObject_RichCompareBool (_obj a) (_obj b) Py_GT
                  (Py_XINCREF (_obj b) r) q) as G.
    destruct (PyObject_RichCompareBool (_obj a) (_obj b) Py_GT
                (Py_XINCREF (_obj b) r)) as [gt r2].
    pose proof (refcnt_PyObject_RichCompareBool (_obj a) (_obj b) Py_LT
                  r2 q) as L.
    destruct (PyObject_RichCompareBool (_obj a) (_obj b) Py_LT r2)
      as [lt r3].
    cbn [fst snd] in *. rewrite refcnt_destroy. cbn [_own].
    rewrite L, G, refcnt_incref. lia.
  - intros G L. do 2 eexists. rewrite !cmp_value.
    split; [reflexivity|]. split; [reflexivity|]. rewrite G, L. lia.
Qed.

Lemma cmp_is_antisymmetric_and_keeps_counts_witness :
  compare demo 2%N 6%N Py_GT = compare demo 6%N 2%N Py_LT /\
  compare demo 2%N 6%N Py_LT = compare demo 6%N 2%N Py_GT /\
  exists x y,
    fst (cmp (mkObject 2%N 2%N) (mkObject 6%N 6%N) demo) = Return x /\
    fst (cmp (mkObject 6%N 6%N) (mkObject 2%N 2%N) demo) = Return y /\
    x = - y.
Proof.
  split; [reflexivity|]. split; [reflexivity|].
  exact (proj2 (cmp_is_antisymmetric_and_keeps_counts
                  (mkObject 2%N 2%N) (mkObject 6%N 6%N) demo)
           eq_refl eq_refl).
Defined.

(** ** Attributes, calls and queries *)

(** *** Lemmas on the primitives of the world *)

Lemma refcnt_new_reference (p : PyObject) (r : runtime) (q : PyObject) :
  ob_refcnt (new_reference p r) q = ob_refcnt r q + hit q p.
Proof.
  unfold new_reference, hit, upd. destruct (is_null_ptr p); cbn; [lia|].
  destruct (N.eqb_spec q p); subst; lia.
Qed.

Lemma refcnt_dropped_reference (p : PyObject) (r : runtime) (q : PyObject) :
  ob_refcnt (dropped_reference p r) q = ob_refcnt r q - hit q p.
Proof.
  unfold dropped_reference, hit, upd. destruct (is_null_ptr p); cbn; [lia|].
  destruct (N.eqb_spec q p); subst; lia.
Qed.

Lemma err_new_reference (p : PyObject) (r : runtime) :
  err (new_reference p r) = err r.
Proof. unfold new_reference. now destruct (is_null_ptr p). Qed.

Lemma err_dropped_reference (p : PyObject) (r : runtime) :
  err (dropped_reference p r) = err r.
Proof. unfold dropped_reference. now destruct (is_null_ptr p). Qed.

Lemma ob_val_new_reference (p : PyObject) (r : runtime) :
  ob_val (new_reference p r) = ob_val r.
Proof. unfold new_reference. now destruct (is_null_ptr p). Qed.

Lemma ob_val_dropped_reference (p : PyObject) (r : runtime) :
  ob_val (dropped_reference p r) = ob_val r.
Proof. unfold dropped_reference. now destruct (is_null_ptr p). Qed.

Lemma ob_val_Py_XINCREF (p : PyObject) (r : runtime) :
  ob_val (Py_XINCREF p r) = ob_val r.
Proof. unfold Py_XINCREF. now destruct (is_null_ptr p). Qed.

Lemma ob_val_Py_XDECREF (p : PyObject) (r : runtime) :
  ob_val (Py_XDECREF p r) = ob_val r.
Proof.
  unfold Py_XDECREF, Py_DECREF. destruct (is_null_ptr p); [reflexivity|].
  now destruct (_ =? 0).
Qed.

Lemma ob_val_lose_ref (p : PyObject) (r : runtime) :
  ob_val (snd (lose_ref p r)) = ob_val r.
Proof. unfold lose_ref. now destruct (is_null_ptr p). Qed.

Lemma lose_ref_eq (p : PyObject) (r : runtime) :
  lose_ref p r = (p, snd (lose_ref p r)).
Proof. unfold lose_ref. now destruct (is_null_ptr p). Qed.

Lemma steal_in_world (p : PyObject) (w : world) :
  (let '(p', w2) := lift (lose_ref p) w in
   let '(h, w3) := lift (object_PyObject p') w2 in
   (Return h, w3)) = (Return (mkObject p p), take_over p w).
Proof.
  unfold lift, take_over. rewrite lose_ref_eq. cbn [rt with_rt].
  rewrite object_PyObject_eq. reflexivity.
Qed.

Lemma refcnt_take_over (p : PyObject) (w : world) (q : PyObject) :
  ob_refcnt (rt (take_over p w)) q = ob_refcnt (rt w) q.
Proof.
  unfold take_over. cbn [rt with_rt].
  rewrite refcnt_incref, refcnt_lose_ref. lia.
Qed.

Lemma err_take_over (p : PyObject) (w : world) :
  err (rt (take_over p w)) = err (rt w).
Proof.
  unfold take_over. cbn [rt with_rt].
  now rewrite err_Py_XINCREF, err_lose_ref.
Qed.

Lemma ob_val_take_over (p : PyObject) (w : world) :
  ob_val (rt (take_over p w)) = ob_val (rt w).
Proof.
  unfold take_over. cbn [rt with_rt].
  now rewrite ob_val_Py_XINCREF, ob_val_lose_ref.
Qed.

Lemma attr_found (self : object) (nm : list byte) (w : world) (p : PyObject) :
  attrs w (_obj self) (c_string nm) = Ok p ->
  is_null_ptr p = false ->
  attr self nm w =
  (Return (mkObject p p),
   take_over p (with_rt w (new_reference p (rt w)))).
Proof.
  intros H Hp. unfold attr, PyObject_GetAttrString, get_attribute.
  rewrite H, Hp. apply steal_in_world.
Qed.

Lemma attr_missing (self : object) (nm : list byte) (w : world) (e : PyExc) :
  attrs w (_obj self) (c_string nm) = Raises e ->
  attr self nm w = (Throw, with_rt w (raise e (rt w))).
Proof.
  intros H. unfold attr, PyObject_GetAttrString, get_attribute.
  now rewrite H.
Qed.

Lemma attr_null (self : object) (nm : list byte) (w : world) (p : PyObject) :
  attrs w (_obj self) (c_string nm) = Ok p ->
  is_null_ptr p = true ->
  attr self nm w = (Throw, with_rt w (rt w)).
Proof.
  intros H Hp. unfold attr, PyObject_GetAttrString, get_attribute.
  rewrite H, Hp. unfold new_reference. now rewrite Hp.
Qed.

(** *** Attribute access (object::attr, object::hasattr) *)

(** X13.  [attr] returns a handle that owns exactly the new reference the
    lookup produced: the count of the attribute is one higher than before
    and no other count has changed.  When the lookup fails [attr] leaves by
    [throw] with the error of the lookup set and every count as before. *)
Theorem attr_owns_the_new_reference
  (self : object) (nm : list byte) (w : world) :
  let out := attr self nm w in
  (forall p,
     attrs w (_obj self) (c_string nm) = Ok p -> is_null_ptr p = false ->
     fst out = Return (mkObject p p) /\
     (forall q, ob_refcnt (rt (snd out)) q = ob_refcnt (rt w) q + hit q p) /\
     err (rt (snd out)) = err (rt w)) /\
  (forall e,
     attrs w (_obj self) (c_string nm) = Raises e ->
     fst out = Throw /\
     (forall q, ob_refcnt (rt (snd out)) q = ob_refcnt (rt w) q) /\
     err (rt (snd out)) = Some (e, EmptyString)).
Proof.
  cbv zeta. split.
  - intros p H Hp. rewrite (attr_found self nm w p H Hp). cbn [fst snd].
    split; [reflexivity|]. split.
    + intros q. rewrite refcnt_take_over. cbn [rt with_rt].
      apply refcnt_new_reference.
    + rewrite err_take_over. cbn [rt with_rt]. apply err_new_reference.
  - intros e H. rewrite (attr_missing self nm w e H). cbn [fst snd].
    repeat split.
Qed.

Lemma attr_owns_the_new_reference_witness :
  (attrs demo_world 1%N (c_string ["k"; x00]%byte) = Ok 2%N /\
   is_null_ptr 2%N = false /\
   fst (attr (mkObject 1%N 1%N) ["k"; x00]%byte demo_world) =
     Return (mkObject 2%N 2%N)) /\
  (attrs demo_world 1%N (c_string ["z"; x00]%byte) =
     Raises PyExc_AttributeError /\
   fst (attr (mkObject 1%N 1%N) ["z"; x00]%byte demo_world) = Throw).
Proof.
  split.
  - split; [reflexivity|]. split; [reflexivity|].
    exact (proj1 (proj1 (attr_owns_the_new_reference (mkObject 1%N 1%N)
                           ["k"; x00]%byte demo_world)
                    2%N eq_refl eq_refl)).
  - split; [reflexivity|].
    exact (proj1 (proj2 (attr_owns_the_new_reference (mkObject 1%N 1%N)
                           ["z"; x00]%byte demo_world)
                    PyExc_AttributeError eq_refl)).
Defined.

(** X14.  The three ways to name an attribute agree: for a name without a
    NUL byte, [attr] and [hasattr] with a [std::string], and with a handle
    on a text object that holds the name, do what they do with the
    [const char*]. *)
Theorem attribute_name_overloads_agree
  (self name : object) (s : list byte) (w : world) :
  ~ In x00 s ->
  ob_val (rt w) (_obj name) = PyUnicode s ->
  attr_string self s w = attr self (c_str s) w /\
  attr_object self name w = attr self (c_str s) w /\
  hasattr_string self s w = hasattr self (c_str s) w /\
  hasattr_object self name w = hasattr self (c_str s) w.
Proof.
  intros N V. split; [reflexivity|]. split; [|split; [reflexivity|]].
  - unfold attr_object, attr, PyObject_GetAttr, PyObject_GetAttrString,
      attribute_name, operator_PyObject, c_str.
    now rewrite V, (c_string_no_nul s N).
  - unfold hasattr_object, hasattr, PyObject_HasAttr,
      PyObject_HasAttrString, attribute_name, operator_PyObject, c_str.
    now rewrite V, (c_string_no_nul s N).
Qed.

Lemma attribute_name_overloads_agree_witness :
  ~ In x00 ["k"%byte] /\
  ob_val (rt demo_world) 3%N = PyUnicode ["k"%byte] /\
  attr_object (mkObject 1%N 1%N) (mkObject 3%N 3%N) demo_world =
    attr (mkObject 1%N 1%N) (c_str ["k"%byte]) demo_world.
Proof.
  assert (K : ~ In x00 ["k"%byte]) by (intros [X|[]]; discriminate).
  split; [exact K|]. split; [reflexivity|].
  exact (proj1 (proj2 (attribute_name_overloads_agree (mkObject 1%N 1%N)
                         (mkObject 3%N 3%N) ["k"%byte] demo_world K
                         eq_refl))).
Defined.

(** X15.  [hasattr] answers what [attr] would do: in a world whose
    lookups never answer with a null pointer, [hasattr(nm)] is true exactly
    when [attr(nm)] returns a handle, and false exactly when it throws. *)
Theorem hasattr_tells_whether_attr_returns
  (self : object) (nm : list byte) (w : world) :
  attrs_well_formed w ->
  (hasattr self nm w = true <-> exists h, fst (attr self nm w) = Return h) /\
  (hasattr self nm w = false <-> fst (attr self nm w) = Throw).
Proof.
  intros WF. unfold hasattr, PyObject_HasAttrString.
  destruct (attrs w (_obj self) (c_string nm)) as [p|e] eqn:H.
  - rewrite (attr_found self nm w p H (WF _ _ _ H)). cbn [fst].
    split; split; try discriminate; eauto.
  - rewrite (attr_missing self nm w e H). cbn [fst].
    split; split; try discriminate; auto.
    intros [h X]. discriminate.
Qed.

Lemma hasattr_tells_whether_attr_returns_witness :
  attrs_well_formed demo_world /\
  (hasattr (mkObject 1%N 1%N) ["k"; x00]%byte demo_world = true <->
   exists h, fst (attr (mkObject 1%N 1%N) ["k"; x00]%byte demo_world)
             = Return h).
Proof.
  assert (WF : attrs_well_formed demo_world).
  { intros o name p. cbn [attrs demo_world]. unfold demo_attrs.
    destruct o as [|[| |]]; try discriminate.
    destruct (bytes_eqb name ["k"%byte]);
      [|destruct (bytes_eqb name ["f"%byte])]; try discriminate;
      intros X; inversion X; reflexivity. }
  split; [exact WF|].
  exact (proj1 (hasattr_tells_whether_attr_returns (mkObject 1%N 1%N)
                  ["k"; x00]%byte demo_world WF)).
Defined.

(** *** Calls (object::call, object::mcall) and object::type *)


Lemma owning_of_pointer (p : PyObject) :
  is_null_ptr p = false ->
  owning (mkObject p p) = true /\ invariant (mkObject p p) = true.
Proof.
  intros Hp. unfold owning, invariant. cbn [_obj _own].
  now rewrite Hp, N.eqb_refl.
Qed.

Lemma lift_lose_ref (p : PyObject) (w : world) :
  lift (lose_ref p) w = (p, with_rt w (snd (lose_ref p (rt w)))).
Proof. unfold lift. now rewrite lose_ref_eq. Qed.

Lemma lift_object_PyObject (p : PyObject) (w : world) :
  lift (object_PyObject p) w =
  (mkObject p p, with_rt w (Py_XINCREF p (rt w))).
Proof. reflexivity. Qed.

Lemma hit_null_ptr (q p : PyObject) : is_null_ptr p = true -> hit q p = 0.
Proof. intros H. unfold hit. now rewrite H. Qed.

Ltac counts :=
  cbn [lift_ rt with_rt fst snd _own _obj take_over raise PyErr_SetString
       logged with_err ob_refcnt];
  repeat (rewrite ?refcnt_destroy, ?refcnt_incref, ?refcnt_decref,
            ?refcnt_lose_ref, ?refcnt_new_reference,
            ?refcnt_dropped_reference;
          cbn [_own _obj rt with_rt raise PyErr_SetString logged with_err
               ob_refcnt]).



(** X17.  [mcall] leaks nothing: the handle on the method it looks up is
    released on every way out.  When it returns, only the count of the
    result has changed, one higher for the handle returned; when it leaves
    by [throw], because the attribute is missing or because the call
    raises, every count is as before. *)
Theorem mcall_releases_the_method
  (self : object) (nm : list byte) (args kw : PyObject) (w : world) :
  let out := mcall_with self nm args kw w in
  (forall q,
     ob_refcnt (rt (snd out)) q =
     ob_refcnt (rt w) q
     + match fst out with
       | Return h => hit q (_obj h)
       | _ => 0
       end) /\
  (forall h, fst out = Return h -> owning h = true /\ invariant h = true) /\
  (forall e, attrs w (_obj self) (c_string nm) = Raises e ->
     fst out = Throw) /\
  (forall m e, attrs w (_obj self) (c_string nm) = Ok m ->
     call_of (dyn w) m args kw = Raises e -> fst out = Throw).
Proof.
  cbv zeta. unfold mcall_with.
  destruct (attrs w (_obj self) (c_string nm)) as [m|e] eqn:A.
  - destruct (is_null_ptr m) eqn:Hm.
    + rewrite (attr_null self nm w m A Hm). cbn [fst snd rt with_rt].
      split; [intros q; lia|]. split; [discriminate|].
      split; [discriminate|reflexivity].
    + rewrite (attr_found self nm w m A Hm).
      unfold PyEval_CallObjectWithKeywords, operator_PyObject.
      cbn [_obj dyn take_over with_rt].
      destruct (call_of (dyn w) m args kw) as [p|e] eqn:C.
      * destruct (is_null_ptr p) eqn:Hp.
        -- split.
           ++ intros q. counts. rewrite (hit_null_ptr q p Hp). lia.
           ++ split; [discriminate|]. split; [discriminate|].
              intros m' e' X Y. inversion X; subst m'. congruence.
        -- rewrite lift_lose_ref, lift_object_PyObject. split.
           ++ intros q. counts. lia.
           ++ split.
              ** intros h X. inversion X. now apply owning_of_pointer.
              ** split; [discriminate|].
                 intros m' e' X Y. inversion X; subst m'. congruence.
      * change (is_null_ptr NULL) with true. cbv iota. split.
        -- intros q. counts. lia.
        -- split; [discriminate|]. split; [discriminate|reflexivity].
  - rewrite (attr_missing self nm w e A).
    cbn [fst snd rt with_rt raise PyErr_SetString logged with_err
         ob_refcnt].
    split; [intros q; lia|]. split; [discriminate|].
    split; [reflexivity|discriminate].
Qed.

Lemma mcall_releases_the_method_witness :
  (fst (mcall (mkObject 1%N 1%N) ["f"; x00]%byte demo_world)
   = Return (mkObject 6%N 6%N) /\
   owning (mkObject 6%N 6%N) = true /\
   invariant (mkObject 6%N 6%N) = true) /\
  (attrs demo_world 1%N (c_string ["z"; x00]%byte)
   = Raises PyExc_AttributeError /\
   fst (mcall (mkObject 1%N 1%N) ["z"; x00]%byte demo_world) = Throw) /\
  (attrs demo_world 1%N (c_string ["k"; x00]%byte) = Ok 2%N /\
   call_of (dyn demo_world) 2%N NULL NULL = Raises PyExc_TypeError /\
   fst (mcall (mkObject 1%N 1%N) ["k"; x00]%byte demo_world) = Throw /\
   ob_refcnt (rt (snd (mcall (mkObject 1%N 1%N) ["k"; x00]%byte
                         demo_world))) 2%N
   = ob_refcnt (rt demo_world) 2%N + 0).
Proof.
  pose proof (mcall_releases_the_method (mkObject 1%N 1%N) ["f"; x00]%byte
                NULL NULL demo_world) as (_ & F & _).
  pose proof (mcall_releases_the_method (mkObject 1%N 1%N) ["z"; x00]%byte
                NULL NULL demo_world) as (_ & _ & Z & _).
  pose proof (mcall_releases_the_method (mkObject 1%N 1%N) ["k"; x00]%byte
                NULL NULL demo_world) as (K1 & _ & _ & K2).
  split; [|split].
  - split; [reflexivity|]. exact (F (mkObject 6%N 6%N) eq_refl).
  - split; [reflexivity|]. exact (Z PyExc_AttributeError eq_refl).
  - split; [reflexivity|]. split; [reflexivity|].
    split; [exact (K2 2%N PyExc_TypeError eq_refl eq_refl)|exact (K1 2%N)].
Defined.

(** X18.  [type()] returns an owning handle on the type object for a
    handle on any object: the count of the type is one higher than before
    and no other count has changed.  On a handle with no value it leaves by
    [throw]. *)
Theorem type_owns_the_type_object (self : object) (w : world) :
  let out := type self w in
  let t := type_of (dyn w) (_obj self) in
  (is_null self = false -> is_null_ptr t = false ->
   fst out = Return (mkObject t t) /\
   forall q, ob_refcnt (rt (snd out)) q = ob_refcnt (rt w) q + hit q t) /\
  (is_null self = true ->
   fst out = Throw /\
   forall q, ob_refcnt (rt (snd out)) q = ob_refcnt (rt w) q).
Proof.
  cbv zeta. unfold type, PyObject_Type, is_null. split.
  - intros Hs Ht. rewrite Hs, Ht, steal_in_world. cbn [fst snd].
    split; [reflexivity|]. intros q. rewrite refcnt_take_over.
    cbn [rt with_rt]. apply refcnt_new_reference.
  - intros Hs. rewrite Hs. cbn. auto.
Qed.

Lemma type_owns_the_type_object_witness :
  (is_null (mkObject 2%N 2%N) = false /\
   is_null_ptr (type_of (dyn demo_world) 2%N) = false /\
   fst (type (mkObject 2%N 2%N) demo_world) = Return (mkObject 8%N 8%N)) /\
  (is_null object_nullptr = true /\
   fst (type object_nullptr demo_world) = Throw).
Proof.
  split.
  - split; [reflexivity|]. split; [reflexivity|].
    exact (proj1 (proj1 (type_owns_the_type_object (mkObject 2%N 2%N)
                           demo_world) eq_refl eq_refl)).
  - split; [reflexivity|].
    exact (proj1 (proj2 (type_owns_the_type_object object_nullptr
                           demo_world) eq_refl)).
Defined.

(** *** Attribute stores and removals (object::set_attr, object::del) *)

Lemma bytes_eqb_refl (a : list byte) : bytes_eqb a a = true.
Proof.
  induction a as [|x a IH]; [reflexivity|]. cbn.
  now rewrite (Byte.byte_dec_lb eq_refl), IH.
Qed.

Lemma upd_attr_same {A : Type} (f : PyObject -> list byte -> A)
  (o : PyObject) (name : list byte) (a : A) :
  upd_attr f o name a o name = a.
Proof. unfold upd_attr. now rewrite N.eqb_refl, bytes_eqb_refl. Qed.

Lemma operator_int_of_long (p : PyObject) (r : runtime) (v : Z) :
  ob_val r p = PyLong v ->
  is_null_ptr p = false ->
  err r = None ->
  LONG_MIN <= v <= LONG_MAX ->
  fst (operator_int (mkObject p p) r) = Return (cast_int v).
Proof.
  intros V Hp E Hv. unfold operator_int, PyLong_AsLong. cbn [_obj].
  rewrite Hp, V.
  replace ((LONG_MIN <=? v) && (v <=? LONG_MAX)) with true
    by (symmetry; apply andb_true_iff; split; apply Z.leb_le; lia).
  unfold PyErr_Occurred. now rewrite E.
Qed.

(** X19.  A rejected [set_attr] leaks nothing.  With a handle as the
    value, it leaves by [throw] with the error of the store set and every
    count as before.  With an [int] as the value, the one reference the
    temporary handle took to the integer object is released again and no
    other count has changed: an integer object made for the call ends
    with the count 0, and an integer object the runtime shares ends with
    the count it had before the call. *)
Theorem rejected_set_attr_leaks_nothing
  (self : object) (nm : list byte) (w : world) :
  (forall v e,
     is_null v = false ->
     setattr_rejects (dyn w) (_obj self) (c_string nm) (_obj v) = Some e ->
     let out := set_attr self nm (object_copy v) w in
     fst out = Throw /\
     (forall q, ob_refcnt (rt (snd out)) q = ob_refcnt (rt w) q) /\
     err (rt (snd out)) = Some (e, EmptyString)) /\
  (forall n e,
     let made := object_int n (rt w) in
     let p := _obj (fst made) in
     setattr_rejects (dyn w) (_obj self) (c_string nm) p = Some e ->
     let out := set_attr self nm (object_int n) w in
     fst out = Throw /\
     (forall q,
        ob_refcnt (rt (snd out)) q = ob_refcnt (snd made) q - hit q p) /\
     (forall q, q <> p ->
        ob_refcnt (rt (snd out)) q = ob_refcnt (rt w) q) /\
     match shared (rt w) (PyLong (cast_int n)) with
     | None => ob_refcnt (rt (snd out)) p = 0
     | Some _ => ob_refcnt (rt (snd out)) p = ob_refcnt (rt w) p
     end /\
     err (rt (snd out)) = Some (e, EmptyString)).
Proof.
  split.
  - intros v e Hv Rj. cbv zeta. unfold is_null in Hv.
    unfold set_attr, lift. rewrite object_copy_eq.
    unfold PyObject_SetAttrString, set_attribute, operator_PyObject.
    cbn [_obj rt with_rt dyn]. rewrite Hv, Rj, Z.eqb_refl. cbn [fst snd].
    split; [reflexivity|]. split.
    + intros q. counts. lia.
    + cbn [lift_ rt with_rt]. now rewrite err_destroy.
  - intros n e. cbv zeta.
    unfold set_attr, lift, object_int, PyLong_FromLong.
    pose proof (alloc_spec (PyLong (cast_int n)) (rt w)) as A.
    cbv zeta in A. destruct (alloc _ (rt w)) as [p r1].
    cbn [fst snd _obj] in *.
    destruct A as (N & V & _ & _ & _ & _ & _ & O & K). intros Rj.
    unfold PyObject_SetAttrString, set_attribute, operator_PyObject.
    cbn [_obj rt with_rt dyn]. rewrite N, Rj, Z.eqb_refl.
    cbn [fst snd].
    split; [reflexivity|]. split; [|split; [|split]].
    + intros q. counts. reflexivity.
    + intros q Hq. counts. rewrite hit_other by exact Hq.
      rewrite (proj1 (O q Hq)). lia.
    + destruct K as [(S & _ & C)|(S & _ & C & _)]; rewrite S;
        counts; rewrite C, hit_same by exact N; lia.
    + cbn [lift_ rt with_rt]. now rewrite err_destroy.
Qed.

Lemma rejected_set_attr_leaks_nothing_witness :
  (is_null (mkObject 6%N 6%N) = false /\
   setattr_rejects (dyn demo_world) 4%N (c_string ["n"; x00]%byte) 6%N
   = Some PyExc_AttributeError /\
   fst (set_attr (mkObject 4%N 4%N) ["n"; x00]%byte
          (object_copy (mkObject 6%N 6%N)) demo_world) = Throw) /\
  (setattr_rejects (dyn demo_world) 4%N (c_string ["n"; x00]%byte)
     (_obj (fst (object_int 5 (rt demo_world))))
   = Some PyExc_AttributeError /\
   fst (set_attr (mkObject 4%N 4%N) ["n"; x00]%byte (object_int 5)
          demo_world) = Throw /\
   ob_refcnt (rt (snd (set_attr (mkObject 4%N 4%N) ["n"; x00]%byte
                         (object_int 5) demo_world)))
     (_obj (fst (object_int 5 (rt demo_world)))) = 0) /\
  (setattr_rejects (dyn sharing_world) 4%N (c_string ["n"; x00]%byte)
     (_obj (fst (object_int 7 (rt sharing_world))))
   = Some PyExc_AttributeError /\
   _obj (fst (object_int 7 (rt sharing_world))) = 2%N /\
   ob_refcnt (rt (snd (set_attr (mkObject 4%N 4%N) ["n"; x00]%byte
                         (object_int 7) sharing_world))) 2%N
   = ob_refcnt (rt sharing_world) 2%N).
Proof.
  pose proof (rejected_set_attr_leaks_nothing (mkObject 4%N 4%N)
                ["n"; x00]%byte demo_world) as (Hv & Hn).
  pose proof (rejected_set_attr_leaks_nothing (mkObject 4%N 4%N)
                ["n"; x00]%byte sharing_world) as (_ & Hs).
  split; [|split].
  - split; [reflexivity|]. split; [reflexivity|].
    exact (proj1 (Hv (mkObject 6%N 6%N) PyExc_AttributeError
                    eq_refl eq_refl)).
  - split; [reflexivity|].
    destruct (Hn 5 PyExc_AttributeError eq_refl) as (A & _ & _ & B & _).
    split; [exact A|exact B].
  - split; [reflexivity|]. split; [reflexivity|].
    destruct (Hs 7 PyExc_AttributeError eq_refl) as (_ & _ & _ & B & _).
    exact B.
Defined.

(** X20.  An attribute set from a native [int] is read back unchanged:
    when the object accepts the store and no error is pending,
    [set_attr(nm, n)] returns, after which [hasattr(nm)] is true and
    [attr(nm)] returns a handle whose cast to [int] is [n]. *)
Theorem set_attr_then_attr_reads_the_value
  (self : object) (nm : list byte) (n : Z) (w : world) :
  (forall v, setattr_rejects (dyn w) (_obj self) (c_string nm) v = None) ->
  err (rt w) = None ->
  INT_MIN <= n <= INT_MAX ->
  let w1 := snd (set_attr self nm (object_int n) w) in
  fst (set_attr self nm (object_int n) w) = Return tt /\
  hasattr self nm w1 = true /\
  exists h w2,
    attr self nm w1 = (Return h, w2) /\
    fst (operator_int h (rt w2)) = Return n.
Proof.
  intros Acc E Hn. cbv zeta.
  assert (S : exists p r1,
             is_null_ptr p = false /\
             set_attr self nm (object_int n) w =
             (Return tt,
              mkWorld r1 (upd_attr (attrs w) (_obj self) (c_string nm) (Ok p))
                (dyn w)) /\
             ob_val r1 p = PyLong (cast_int n) /\ err r1 = None).
  { unfold set_attr, lift, object_int, PyLong_FromLong.
    pose proof (alloc_spec (PyLong (cast_int n)) (rt w)) as A.
    cbv zeta in A. destruct (alloc _ (rt w)) as [p r0].
    cbn [fst snd] in *. destruct A as (Hp & V & E0 & _).
    unfold PyObject_SetAttrString, set_attribute, operator_PyObject.
    cbn [_obj rt with_rt dyn attrs]. rewrite Hp, Acc.
    cbn [Z.eqb lift_ rt with_rt attrs dyn].
    exists p. eexists. split; [exact Hp|]. split; [reflexivity|].
    destruct (attrs w (_obj self) (c_string nm)) as [old|e0];
      unfold destroy; rewrite ?err_Py_XDECREF, ?ob_val_Py_XDECREF;
      cbn [rt];
      rewrite ?err_dropped_reference, ?err_new_reference,
        ?ob_val_dropped_reference, ?ob_val_new_reference;
      rewrite V, E0, E; auto. }
  destruct S as (p & r1 & Hp & S & V & E1). rewrite S. cbn [fst snd].
  split; [reflexivity|]. split.
  - unfold hasattr, PyObject_HasAttrString. cbn [attrs].
    now rewrite upd_attr_same.
  - do 2 eexists. split.
    + apply attr_found; [cbn [attrs]; apply upd_attr_same|exact Hp].
    + apply eq_trans with (y := Return (cast_int (cast_int n)));
        [|now rewrite !(cast_int_small n Hn)].
      apply operator_int_of_long.
      * rewrite ob_val_take_over. cbn [rt with_rt].
        now rewrite ob_val_new_reference.
      * exact Hp.
      * rewrite err_take_over. cbn [rt with_rt].
        now rewrite err_new_reference.
      * rewrite (cast_int_small n Hn).
        unfold LONG_MIN, LONG_MAX, INT_MIN, INT_MAX in *. lia.
Qed.

Lemma set_attr_then_attr_reads_the_value_witness :
  (forall v, setattr_rejects (dyn demo_world) 1%N (c_string ["n"; x00]%byte)
               v = None) /\
  err (rt demo_world) = None /\
  INT_MIN <= 5 <= INT_MAX /\
  exists h w2,
    attr (mkObject 1%N 1%N) ["n"; x00]%byte
      (snd (set_attr (mkObject 1%N 1%N) ["n"; x00]%byte (object_int 5)
              demo_world)) = (Return h, w2) /\
    fst (operator_int h (rt w2)) = Return 5.
Proof.
  assert (A : forall v, setattr_rejects (dyn demo_world) 1%N
                          (c_string ["n"; x00]%byte) v = None)
    by reflexivity.
  assert (I : INT_MIN <= 5 <= INT_MAX) by (unfold INT_MIN, INT_MAX; lia).
  split; [exact A|]. split; [reflexivity|]. split; [exact I|].
  exact (proj2 (proj2 (set_attr_then_attr_reads_the_value (mkObject 1%N 1%N)
                         ["n"; x00]%byte 5 demo_world A eq_refl I))).
Defined.



(** *** String forms (object::repr, object::str) *)

Lemma c_string_app_nul (u : list byte) : c_string (u ++ [x00]) = c_string u.
Proof.
  induction u as [|b u IH]; [reflexivity|]. cbn.
  destruct (Byte.eqb b x00); [reflexivity|]. now rewrite IH.
Qed.

Lemma text_form_eq (p : PyObject) (bytes : list byte) (w1 : world) :
  is_null_ptr p = false ->
  ob_val (rt w1) p = PyUnicode bytes ->
  (let '(rslt, w2) := lift (object_PyObject p) w1 in
   if is_null_ptr (operator_PyObject rslt)
   then (Throw, lift_ (destroy rslt) w2)
   else
     match lift (PyUnicode_AsUTF8 (operator_PyObject rslt)) w2 with
     | (Some buf, w3) => (Return (c_string buf), lift_ (destroy rslt) w3)
     | (None, w3) => (Crash, w3)
     end) =
  (Return (c_string bytes),
   with_rt w1 (Py_XDECREF p (Py_XINCREF p (rt w1)))).
Proof.
  intros N V.
  rewrite lift_object_PyObject. unfold operator_PyObject. cbn [_obj].
  rewrite N. unfold lift, PyUnicode_AsUTF8.
  cbn [rt with_rt]. rewrite ob_val_Py_XINCREF, V.
  rewrite c_string_app_nul. reflexivity.
Qed.

Lemma text_form_counts (bytes : list byte) (r : runtime) :
  let p := fst (alloc (PyUnicode bytes) r) in
  let r1 := snd (alloc (PyUnicode bytes) r) in
  text_kept r bytes p r1 (Py_XDECREF p (Py_XINCREF p r1)).
Proof.
  cbv zeta. pose proof (alloc_spec (PyUnicode bytes) r) as A.
  cbv zeta in A. destruct (alloc _ r) as [p r1]. cbn [fst snd] in *.
  destruct A as (N & V & _ & _ & _ & _ & _ & O & K).
  assert (C : forall q,
             ob_refcnt (Py_XDECREF p (Py_XINCREF p r1)) q = ob_refcnt r1 q)
    by (intros q; rewrite refcnt_decref, refcnt_incref; lia).
  assert (L : log (Py_XDECREF p (Py_XINCREF p r1)) =
              log r1 ++ [Incref p; Decref p] ++
              (if ob_refcnt r1 p =? 0 then [Dealloc p] else [])).
  { rewrite log_Py_XDECREF, log_Py_XINCREF, N, refcnt_incref.
    rewrite hit_same by exact N.
    replace (ob_refcnt r1 p + 1 - 1) with (ob_refcnt r1 p) by lia.
    rewrite <- app_assoc. reflexivity. }
  split; [exact N|]. split.
  { now rewrite ob_val_Py_XDECREF, ob_val_Py_XINCREF. }
  split; [now apply since_app|]. split; [exact C|].
  destruct K as [(S & L1 & C1)|(S & L1 & C1 & _)]; rewrite S.
  - split; [now apply since_app|]. split; [now rewrite C|]. split.
    + apply since_app. rewrite L, L1, C1. cbn [Z.eqb].
      rewrite <- app_assoc. reflexivity.
    + intros q Hq. rewrite C. apply (O q Hq).
  - split; [reflexivity|]. split; [now apply since_app|].
    intros q. rewrite C. destruct (N.eq_dec q p) as [->|D].
    + rewrite C1, hit_same; auto.
    + rewrite (proj1 (O q D)), hit_other; auto. lia.
Qed.

(** X22.  [repr] and [str] return the text of the runtime's string form
    up to its first NUL byte, and keep the reference the runtime returned:
    the local handle adds a count of its own to the text object and
    removes it again, so every count is left as the runtime's call left
    it.  A text object the runtime made for the call is left with the
    count 1 and no handle on it; a text object the runtime already had is
    left with its count one higher than before the call.  When the
    runtime raises they leave by [throw] with every count as before. *)
Theorem repr_and_str_keep_the_text_object
  (self : object) (w : world) :
  (forall bytes, repr_of (dyn w) (_obj self) = Ok bytes ->
     fst (repr self w) = Return (c_string bytes) /\
     text_kept (rt w) bytes
       (fst (PyObject_Repr (_obj self) w))
       (rt (snd (PyObject_Repr (_obj self) w)))
       (rt (snd (repr self w)))) /\
  (forall bytes, str_of (dyn w) (_obj self) = Ok bytes ->
     fst (str self w) = Return (c_string bytes) /\
     text_kept (rt w) bytes
       (fst (PyObject_Str (_obj self) w))
       (rt (snd (PyObject_Str (_obj self) w)))
       (rt (snd (str self w)))) /\
  (forall e, repr_of (dyn w) (_obj self) = Raises e ->
     fst (repr self w) = Throw /\
     forall q, ob_refcnt (rt (snd (repr self w))) q = ob_refcnt (rt w) q) /\
  (forall e, str_of (dyn w) (_obj self) = Raises e ->
     fst (str self w) = Throw /\
     forall q, ob_refcnt (rt (snd (str self w))) q = ob_refcnt (rt w) q).
Proof.
  assert (T : forall bytes,
    let out :=
      (let '(p, w1) := lift (alloc (PyUnicode bytes)) w in
       let '(rslt, w2) := lift (object_PyObject p) w1 in
       if is_null_ptr (operator_PyObject rslt)
       then (Throw, lift_ (destroy rslt) w2)
       else
         match lift (PyUnicode_AsUTF8 (operator_PyObject rslt)) w2 with
         | (Some buf, w3) =>
             (Return (c_string buf), lift_ (destroy rslt) w3)
         | (None, w3) => (Crash, w3)
         end) in
    fst out = Return (c_string bytes) /\
    text_kept (rt w) bytes
      (fst (lift (alloc (PyUnicode bytes)) w))
      (rt (snd (lift (alloc (PyUnicode bytes)) w)))
      (rt (snd out))).
  { intros bytes. cbv zeta.
    pose proof (text_form_counts bytes (rt w)) as K. cbv zeta in K.
    pose proof (alloc_spec (PyUnicode bytes) (rt w)) as A. cbv zeta in A.
    destruct A as (N & V & _).
    replace (lift (alloc (PyUnicode bytes)) w)
      with (fst (alloc (PyUnicode bytes) (rt w)),
            with_rt w (snd (alloc (PyUnicode bytes) (rt w))))
      by (unfold lift; now destruct (alloc _ (rt w))).
    rewrite (text_form_eq _ bytes (with_rt w _) N V).
    cbn [fst snd rt with_rt]. split; [reflexivity|exact K]. }
  split; [|split; [|split]].
  - intros bytes H. unfold repr, PyObject_Repr. rewrite H. apply T.
  - intros bytes H. unfold str, PyObject_Str. rewrite H. apply T.
  - intros e H. unfold repr, PyObject_Repr. rewrite H. cbn. auto.
  - intros e H. unfold str, PyObject_Str. rewrite H. cbn. auto.
Qed.

Lemma repr_and_str_keep_the_text_object_witness :
  (repr_of (dyn demo_world) 2%N = Ok ["7"%byte] /\
   fst (repr (mkObject 2%N 2%N) demo_world) = Return (c_string ["7"%byte]) /\
   text_kept (rt demo_world) ["7"%byte]
     (fst (PyObject_Repr 2%N demo_world))
     (rt (snd (PyObject_Repr 2%N demo_world)))
     (rt (snd (repr (mkObject 2%N 2%N) demo_world)))) /\
  (str_of (dyn sharing_world) 3%N = Ok ["k"%byte] /\
   fst (PyObject_Str 3%N sharing_world) = 3%N /\
   fst (str (mkObject 3%N 3%N) sharing_world)
   = Return (c_string ["k"%byte])) /\
  (repr_of (dyn demo_world) 1%N = Raises PyExc_ValueError /\
   fst (repr (mkObject 1%N 1%N) demo_world) = Throw) /\
  (str_of (dyn demo_world) 1%N = Raises PyExc_ValueError /\
   fst (str (mkObject 1%N 1%N) demo_world) = Throw).
Proof.
  split; [|split; [|split]].
  - split; [reflexivity|].
    exact (proj1 (repr_and_str_keep_the_text_object (mkObject 2%N 2%N)
                    demo_world) ["7"%byte] eq_refl).
  - split; [reflexivity|]. split; [reflexivity|].
    exact (proj1 (proj1 (proj2 (repr_and_str_keep_the_text_object
                                  (mkObject 3%N 3%N) sharing_world))
                    ["k"%byte] eq_refl)).
  - split; [reflexivity|].
    exact (proj1 (proj1 (proj2 (proj2 (repr_and_str_keep_the_text_object
                                         (mkObject 1%N 1%N) demo_world)))
                    PyExc_ValueError eq_refl)).
  - split; [reflexivity|].
    exact (proj1 (proj2 (proj2 (proj2 (repr_and_str_keep_the_text_object
                                         (mkObject 1%N 1%N) demo_world)))
                    PyExc_ValueError eq_refl)).
Defined.

(** *** Hash, size and truth (object::hash, object::size, object::is_true) *)

(** X23.  [hash] narrows the hash of the runtime to [int]: with no error
    pending it returns the hash reduced modulo 2^32 into the range of
    [int], so hashes that differ by a multiple of 2^32 are returned alike;
    a hash in the range of [int] other than -1 is returned unchanged.  For
    an unhashable value it leaves by [throw] with the runtime's error
    set. *)
Theorem hash_narrows_to_int (self : object) (w : world) :
  (forall e, hash_of (dyn w) (_obj self) = Raises e ->
     fst (hash self w) = Throw /\
     err (rt (snd (hash self w))) = Some (e, EmptyString)) /\
  (forall h, hash_of (dyn w) (_obj self) = Ok h -> err (rt w) = None ->
     hash self w = (Return (cast_int h), w)) /\
  (forall h, hash_of (dyn w) (_obj self) = Ok h ->
     INT_MIN <= h <= INT_MAX -> h <> -1 ->
     hash self w = (Return h, w)).
Proof.
  split; [|split].
  - intros e H. unfold hash, PyObject_Hash. rewrite H. cbn. auto.
  - intros h H E. unfold hash, PyObject_Hash. rewrite H.
    unfold PyErr_Occurred. rewrite E, andb_false_r. reflexivity.
  - intros h H Hr Hn. unfold hash, PyObject_Hash. rewrite H.
    rewrite (cast_int_small h Hr).
    replace (h =? -1) with false by (symmetry; apply Z.eqb_neq; exact Hn).
    reflexivity.
Qed.

Lemma hash_narrows_to_int_witness :
  (hash_of (dyn demo_world) 1%N = Raises PyExc_TypeError /\
   fst (hash (mkObject 1%N 1%N) demo_world) = Throw) /\
  (hash_of (dyn demo_world) 3%N = Ok (2 ^ 32 + 7) /\
   err (rt demo_world) = None /\
   hash (mkObject 3%N 3%N) demo_world
   = (Return (cast_int (2 ^ 32 + 7)), demo_world) /\
   cast_int (2 ^ 32 + 7) = 7) /\
  (hash_of (dyn demo_world) 2%N = Ok 7 /\
   INT_MIN <= 7 <= INT_MAX /\ 7 <> -1 /\
   hash (mkObject 2%N 2%N) demo_world = (Return 7, demo_world)).
Proof.
  assert (I : INT_MIN <= 7 <= INT_MAX) by (unfold INT_MIN, INT_MAX; lia).
  assert (N7 : 7 <> -1) by discriminate.
  split; [|split].
  - split; [reflexivity|].
    exact (proj1 (proj1 (hash_narrows_to_int (mkObject 1%N 1%N) demo_world)
                    PyExc_TypeError eq_refl)).
  - split; [reflexivity|]. split; [reflexivity|]. split; [|reflexivity].
    exact (proj1 (proj2 (hash_narrows_to_int (mkObject 3%N 3%N) demo_world))
             (2 ^ 32 + 7) eq_refl eq_refl).
  - split; [reflexivity|]. split; [exact I|]. split; [exact N7|].
    exact (proj2 (proj2 (hash_narrows_to_int (mkObject 2%N 2%N) demo_world))
             7 eq_refl I N7).
Defined.

(** X24.  [size], [len] and [length] are one function.  They return a
    size that fits an [int] unchanged and leave by [throw], with the
    runtime's error set, for a value that has no size.  The size is
    narrowed to [int] before the test for failure: a size that narrows to
    -1 is thrown as well, with no error set. *)
Theorem size_returns_or_throws (self : object) (w : world) :
  len self w = size self w /\
  length self w = size self w /\
  (forall n, size_of (dyn w) (_obj self) = Ok n -> 0 <= n <= INT_MAX ->
     size self w = (Return n, w)) /\
  (forall e, size_of (dyn w) (_obj self) = Raises e ->
     fst (size self w) = Throw /\
     err (rt (snd (size self w))) = Some (e, EmptyString)) /\
  (forall n, size_of (dyn w) (_obj self) = Ok n -> cast_int n = -1 ->
     size self w = (Throw, w)).
Proof.
  split; [reflexivity|]. split; [reflexivity|]. split; [|split].
  - intros n H Hn. unfold size, PyObject_Size. rewrite H.
    rewrite cast_int_small by (unfold INT_MIN, INT_MAX in *; lia).
    replace (n =? -1) with false by (symmetry; apply Z.eqb_neq; lia).
    reflexivity.
  - intros e H. unfold size, PyObject_Size. rewrite H. cbn. auto.
  - intros n H Hn. unfold size, PyObject_Size. rewrite H, Hn. reflexivity.
Qed.

Lemma size_returns_or_throws_witness :
  (size_of (dyn demo_world) 5%N = Ok 0 /\ 0 <= 0 <= INT_MAX /\
   size (mkObject 5%N 5%N) demo_world = (Return 0, demo_world)) /\
  (size_of (dyn demo_world) 2%N = Raises PyExc_TypeError /\
   fst (size (mkObject 2%N 2%N) demo_world) = Throw) /\
  (size_of (dyn vast_world) 1%N = Ok (2 ^ 32 - 1) /\
   cast_int (2 ^ 32 - 1) = -1 /\
   size (mkObject 1%N 1%N) vast_world = (Throw, vast_world)).
Proof.
  assert (I : 0 <= 0 <= INT_MAX) by (unfold INT_MAX; lia).
  split; [|split].
  - split; [reflexivity|]. split; [exact I|].
    exact (proj1 (proj2 (proj2 (size_returns_or_throws (mkObject 5%N 5%N)
                                  demo_world))) 0 eq_refl I).
  - split; [reflexivity|].
    exact (proj1 (proj1 (proj2 (proj2 (proj2 (size_returns_or_throws
                                                (mkObject 2%N 2%N)
                                                demo_world))))
                    PyExc_TypeError eq_refl)).
  - split; [reflexivity|]. split; [reflexivity|].
    exact (proj2 (proj2 (proj2 (proj2 (size_returns_or_throws
                                         (mkObject 1%N 1%N) vast_world))))
             (2 ^ 32 - 1) eq_refl eq_refl).
Defined.

(** X25.  [is_true] never throws: it is true exactly when the truth test
    of the runtime answers true, and a truth test that raises is reported
    as false, with the error of the test left set. *)
Theorem is_true_reports_failure_as_false (self : object) (w : world) :
  (fst (is_true self w) = true <->
   truth_of (dyn w) (_obj self) = Ok true) /\
  (forall e, truth_of (dyn w) (_obj self) = Raises e ->
     fst (is_true self w) = false /\
     err (rt (snd (is_true self w))) = Some (e, EmptyString)).
Proof.
  unfold is_true, PyObject_IsTrue.
  destruct (truth_of (dyn w) (_obj self)) as [[|]|e]; cbn; split;
    try (split; [reflexivity|discriminate]);
    try (split; discriminate);
    try discriminate.
  - split; reflexivity.
  - intros e' X. inversion X. auto.
Qed.

Lemma is_true_reports_failure_as_false_witness :
  truth_of (dyn demo_world) 1%N = Raises PyExc_ValueError /\
  fst (is_true (mkObject 1%N 1%N) demo_world) = false /\
  err (rt (snd (is_true (mkObject 1%N 1%N) demo_world)))
  = Some (PyExc_ValueError, EmptyString).
Proof.
  split; [reflexivity|].
  exact (proj2 (is_true_reports_failure_as_false (mkObject 1%N 1%N)
                  demo_world) PyExc_ValueError eq_refl).
Defined.

(** *** Kind tests (object::is_int and its siblings) *)

Lemma object_bool_cast (b : bool) (r : runtime) :
  err r = None ->
  fst (operator_int (fst (object_bool b r)) (snd (object_bool b r)))
  = Return (if b then 1 else 0).
Proof.
  intros E. unfold object_bool, PyLong_FromLong.
  pose proof (alloc_spec (PyLong (if b then 1 else 0)) r) as A.
  cbv zeta in A. destruct (alloc _ r) as [p r1]. cbn [fst snd] in *.
  destruct A as (N & V & E1 & _).
  rewrite (operator_int_of_long _ _ (if b then 1 else 0)).
  - destruct b; reflexivity.
  - exact V.
  - exact N.
  - now rewrite E1.
  - unfold LONG_MIN, LONG_MAX. destruct b; lia.
Qed.

Lemma object_bool_answers (b : bool) (r : runtime) :
  err r = None ->
  answers r b (let '(h, r1) := object_bool b r in (Return h, r1)).
Proof.
  intros E. pose proof (object_bool_cast b r E) as C.
  assert (O : reference_owner r (PyLong (if b then 1 else 0))
                (object_bool b r)).
  { unfold object_bool, PyLong_FromLong.
    pose proof (alloc_reference_owner (PyLong (if b then 1 else 0)) r) as X.
    now destruct (alloc _ r). }
  unfold answers. destruct (object_bool b r) as [h r1].
  cbn [fst snd] in *. exists h. auto.
Qed.

(** X26.  The kind tests do not return a native truth value.  On a handle
    that wraps a value, with no error pending, [is_int], [is_float],
    [is_complex] and [is_string] each return a handle that owns one new
    reference to an integer object, new or shared by the runtime, which
    casts to 1 when the value is of the kind asked for and to 0
    otherwise.  On a handle that wraps no value each of them reads the
    kind through the null pointer. *)
Theorem kind_tests_return_integer_handles (self : object) (r : runtime) :
  (is_null self = false -> err r = None ->
   answers r (match ob_val r (_obj self) with PyLong _ => true | _ => false end)
     (is_int self r) /\
   answers r (match ob_val r (_obj self) with PyFloat _ => true | _ => false end)
     (is_float self r) /\
   answers r
     (match ob_val r (_obj self) with PyComplex _ _ => true | _ => false end)
     (is_complex self r) /\
   answers r
     (match ob_val r (_obj self) with PyUnicode _ => true | _ => false end)
     (is_string self r)) /\
  (is_null self = true ->
   is_int self r = (Crash, r) /\ is_float self r = (Crash, r) /\
   is_complex self r = (Crash, r) /\ is_string self r = (Crash, r)).
Proof.
  unfold is_null, is_int, is_float, is_complex, is_string, PyLong_Check,
    PyFloat_Check, PyComplex_Check, PyUnicode_Check, Py_TYPE.
  split; intros N; rewrite N; [intros E|repeat split].
  split; [|split; [|split]];
    destruct (ob_val r (_obj self));
    first [exact (object_bool_answers true r E)
          |exact (object_bool_answers false r E)].
Qed.

Lemma kind_tests_return_integer_handles_witness :
  (is_null (mkObject 2%N 2%N) = false /\ err demo = None /\
   answers demo true (is_int (mkObject 2%N 2%N) demo) /\
   answers demo false (is_string (mkObject 2%N 2%N) demo)) /\
  (is_null object_nullptr = true /\
   is_int object_nullptr demo = (Crash, demo)).
Proof.
  split.
  - split; [reflexivity|]. split; [reflexivity|].
    destruct (proj1 (kind_tests_return_integer_handles (mkObject 2%N 2%N)
                       demo) eq_refl eq_refl) as (A & _ & _ & B).
    split; [exact A|exact B].
  - split; [reflexivity|].
    exact (proj1 (proj2 (kind_tests_return_integer_handles object_nullptr
                           demo) eq_refl)).
Defined.
